(** * System-stats endpoint ([src/pages/api/stats.json.ts])

  A shallow embedding of the telemetry endpoint of the portfolio site:
  the two formatters, the CPU, temperature and battery probes, and the
  [GET] handler that assembles the snapshot and serialises it; then the
  properties of the specification, each stated on this code.

  Conventions of the embedding.
  - A JavaScript number is a [number]: [NaN], the two infinities, or a
    finite value carried as an exact rational.  Finite arithmetic is
    exact: the rounding of a result to binary64 is not part of the
    model, so a quotient such as 29 / 200 is the rational itself.  Zero
    is unsigned; the endpoint never divides by a negative zero.
  - A JavaScript string is a [string] whose characters are the code
    units below 256.
  - Code that can throw lives in the [Result] monad; [try_catch] is the
    [try { } catch { }] statement.  Local variables assigned inside a
    [try] block are threaded through as the state of a [Stmt].
  - Everything the handler reads from its host is a field of [Env].
  - [JSON.stringify] yields the JSON document as a tree, [Json].

  The file has three parts: the code, the reference definitions and
  example hosts that the statements use, and the properties. *)

From Stdlib Require Import ZArith QArith Qround Qabs Lia Lqa List Bool.
From Stdlib Require Import Ascii String.
From Stdlib Require Qcanon.
Import ListNotations.

Set Warnings "-register-all".

Local Open Scope Z_scope.

(** ** JavaScript numbers *)

Inductive number : Type :=
| NaN
| PInf
| NInf
| Fin (q : Q).

Module Num.

Definition of_Z (z : Z) : number := Fin (inject_Z z).

(** [a - b] *)
Definition sub (a b : number) : number :=
  match a, b with
  | NaN, _ | _, NaN => NaN
  | PInf, PInf | NInf, NInf => NaN
  | PInf, _ | _, NInf => PInf
  | NInf, _ | _, PInf => NInf
  | Fin x, Fin y => Fin (Qred (x - y))
  end.

Definition sign_of (q : Q) : comparison := (q ?= 0)%Q.

(** [a * b] *)
Definition mul (a b : number) : number :=
  match a, b with
  | NaN, _ | _, NaN => NaN
  | Fin x, Fin y => Fin (Qred (x * y))
  | Fin x, PInf | PInf, Fin x =>
      match sign_of x with Eq => NaN | Gt => PInf | Lt => NInf end
  | Fin x, NInf | NInf, Fin x =>
      match sign_of x with Eq => NaN | Gt => NInf | Lt => PInf end
  | PInf, PInf | NInf, NInf => PInf
  | PInf, NInf | NInf, PInf => NInf
  end.

(** [a / b]; a finite non-zero value over zero is an infinity, [0 / 0]
    is [NaN]. *)
Definition div (a b : number) : number :=
  match a, b with
  | NaN, _ | _, NaN => NaN
  | Fin x, Fin y =>
      match sign_of y with
      | Eq => match sign_of x with Eq => NaN | Gt => PInf | Lt => NInf end
      | _ => Fin (Qred (x / y))
      end
  | Fin _, (PInf | NInf) => Fin 0
  | PInf, Fin y => match sign_of y with Lt => NInf | _ => PInf end
  | NInf, Fin y => match sign_of y with Lt => PInf | _ => NInf end
  | (PInf | NInf), (PInf | NInf) => NaN
  end.

(** Integer part towards zero of a rational. *)
Definition Qtrunc (q : Q) : Z := Z.quot (Qnum q) (Zpos (Qden q)).

(** [a % b]: the remainder takes the sign of the dividend. *)
Definition rem (a b : number) : number :=
  match a, b with
  | NaN, _ | _, NaN => NaN
  | (PInf | NInf), _ => NaN
  | Fin x, (PInf | NInf) => Fin x
  | Fin x, Fin y =>
      match sign_of y with
      | Eq => NaN
      | _ => Fin (Qred (x - y * inject_Z (Qtrunc (x / y))))
      end
  end.

(** [a > b] *)
Definition gt (a b : number) : bool :=
  match a, b with
  | NaN, _ | _, NaN => false
  | PInf, PInf => false
  | PInf, _ => true
  | _, PInf => false
  | NInf, _ => false
  | Fin _, NInf => true
  | Fin x, Fin y => match (x ?= y)%Q with Gt => true | _ => false end
  end.

(** [a >= b] *)
Definition ge (a b : number) : bool :=
  match a, b with
  | NaN, _ | _, NaN => false
  | PInf, _ => true
  | _, NInf => true
  | NInf, _ => false
  | Fin _, PInf => false
  | Fin x, Fin y => match (x ?= y)%Q with Lt => false | _ => true end
  end.

End Num.

(** ** The [Math] object *)

Module Math.

(** [Math.floor] *)
Definition floor (a : number) : number :=
  match a with
  | Fin q => Num.of_Z (Qfloor q)
  | _ => a
  end.

(** [Math.round]: the integer closest to the argument, the larger one
    when two are equally close. *)
Definition round_Q (q : Q) : Z :=
  let f := Qfloor q in
  if Qle_bool (1 # 2) (q - inject_Z f) then f + 1 else f.

Definition round (a : number) : number :=
  match a with
  | Fin q => Num.of_Z (round_Q q)
  | _ => a
  end.

(** [Math.min] of two arguments. *)
Definition min (a b : number) : number :=
  match a, b with
  | NaN, _ | _, NaN => NaN
  | _, _ => if Num.gt a b then b else a
  end.

End Math.

(** ** JavaScript strings *)

Local Open Scope string_scope.

Module Str.

Definition code (c : ascii) : N := N_of_ascii c.

(** [WhiteSpace] and [LineTerminator] code units: what [trim],
    [parseInt] and the regular-expression class [\s] skip. *)
Definition is_space (c : ascii) : bool :=
  let n := code c in
  ((9 <=? n) && (n <=? 13) || (n =? 32) || (n =? 160))%N.

(** [LineTerminator] code units: where [^] and [$] of a multi-line
    regular expression match and where [.] stops. *)
Definition is_line_terminator (c : ascii) : bool :=
  let n := code c in ((n =? 10) || (n =? 13))%N.

Fixpoint trimStart (s : string) : string :=
  match s with
  | String c r => if is_space c then trimStart r else s
  | EmptyString => EmptyString
  end.

Fixpoint trimEnd (s : string) : string :=
  match s with
  | String c r =>
      match trimEnd r with
      | EmptyString => if is_space c then EmptyString else String c EmptyString
      | r' => String c r'
      end
  | EmptyString => EmptyString
  end.

(** [s.trim()] *)
Definition trim (s : string) : string := trimEnd (trimStart s).

Definition lower_char (c : ascii) : ascii :=
  let n := code c in
  if ((65 <=? n) && (n <=? 90)
      || (192 <=? n) && (n <=? 222) && negb (n =? 215))%N
  then ascii_of_N (n + 32) else c.

(** [s.toLowerCase()] *)
Fixpoint toLowerCase (s : string) : string :=
  match s with
  | String c r => String (lower_char c) (toLowerCase r)
  | EmptyString => EmptyString
  end.

(** [s] without the prefix [p], when it starts with it. *)
Fixpoint strip_prefix (p s : string) : option string :=
  match p, s with
  | EmptyString, _ => Some s
  | String a p', String b s' =>
      if Ascii.eqb a b then strip_prefix p' s' else None
  | String _ _, EmptyString => None
  end.

(** [parts.join(sep)] *)
Fixpoint join (sep : string) (parts : list string) : string :=
  match parts with
  | [] => EmptyString
  | [p] => p
  | p :: rest => p ++ sep ++ join sep rest
  end.

End Str.

(** ** [parseInt] with no radix argument *)

Module ParseInt.

(** Value of a digit in the given radix. *)
Definition digit (radix : Z) (c : ascii) : option Z :=
  let n := Z.of_N (Str.code c) in
  let v :=
    if ((48 <=? n) && (n <=? 57))%Z then Some (n - 48)
    else if ((97 <=? n) && (n <=? 122))%Z then Some (n - 87)
    else if ((65 <=? n) && (n <=? 90))%Z then Some (n - 55)
    else None in
  match v with
  | Some d => if (d <? radix)%Z then Some d else None
  | None => None
  end.

(** The longest prefix of digits of [s], read left to right into [acc];
    [seen] records whether a digit was read. *)
Fixpoint digits (radix : Z) (s : string) (seen : bool) (acc : Z)
  : option Z :=
  match s with
  | String c r =>
      match digit radix c with
      | Some d => digits radix r true (acc * radix + d)
      | None => if seen then Some acc else None
      end
  | EmptyString => if seen then Some acc else None
  end.

Definition unsigned (s : string) : option Z :=
  match s with
  | String "0" (String ("x" | "X")%char r) => digits 16 r false 0
  | _ => digits 10 s false 0
  end.

Definition parseInt (input : string) : number :=
  let s := Str.trimStart input in
  let '(negative, s) :=
    match s with
    | String "-" r => (true, r)
    | String "+" r => (false, r)
    | _ => (false, s)
    end in
  match unsigned s with
  | Some v => Num.of_Z (if negative then - v else v)
  | None => NaN
  end.

End ParseInt.

(** ** The two regular expressions over [/proc/cpuinfo] *)

Module Regex.

Fixpoint skip_spaces (s : string) : string :=
  match s with
  | String c r => if Str.is_space c then skip_spaces r else s
  | EmptyString => EmptyString
  end.

(** [label\s*:] matched at the head of [s]: what follows the colon. *)
Definition label_colon (label s : string) : option string :=
  match Str.strip_prefix label s with
  | Some r =>
      match skip_spaces r with
      | String ":" r' => Some r'
      | _ => None
      end
  | None => None
  end.

(** Number of matches of [/^label\s*:/gm]: the line starts at which
    [label\s*:] matches.  No two such matches overlap, a match holding
    no line start after its first character unless it is inside the
    skipped white space, where the label cannot start. *)
Fixpoint count_lines (label : string) (at_line_start : bool) (s : string)
  : nat :=
  match s with
  | String c r =>
      ((if at_line_start
        then match label_colon label s with Some _ => 1 | None => 0 end
        else 0)
       + count_lines label (Str.is_line_terminator c) r)%nat
  | EmptyString => 0%nat
  end.

(** [.+] followed by [$]: the characters up to the next line terminator. *)
Fixpoint line_of (s : string) : string :=
  match s with
  | String c r =>
      if Str.is_line_terminator c then EmptyString else String c (line_of r)
  | EmptyString => EmptyString
  end.

(** [\s*(.+)$] matched at the head of [s], with backtracking: the white
    space is skipped greedily, and given back one character at a time
    until [.+] has a character that is not a line terminator to start
    on.  [None] when every choice fails. *)
Fixpoint spaces_then_line (s : string) : option string :=
  match s with
  | String c r =>
      if Str.is_space c then
        match spaces_then_line r with
        | Some cap => Some cap
        | None =>
            if Str.is_line_terminator c then None else Some (line_of s)
        end
      else Some (line_of s)
  | EmptyString => None
  end.

(** First capture group of the first match of [/^label\s*:\s*(.+)$/m]. *)
Fixpoint first_capture (label : string) (at_line_start : bool) (s : string)
  : option string :=
  match s with
  | String c r =>
      let here :=
        if at_line_start then
          match label_colon label s with
          | Some rest => spaces_then_line rest
          | None => None
          end
        else None in
      match here with
      | Some cap => Some cap
      | None => first_capture label (Str.is_line_terminator c) r
      end
  | EmptyString => None
  end.

End Regex.

(** ** Decimal digits *)

Module Dec.

Definition digit_char (d : Z) : ascii := ascii_of_N (Z.to_N (48 + d)).

(** The decimal digits of a non-negative integer, most significant
    first; [fuel] bounds their number. *)
Fixpoint digits (fuel : nat) (n : Z) : string :=
  match fuel with
  | O => EmptyString
  | S fuel' =>
      let last := String (digit_char (n mod 10)) EmptyString in
      if (n <? 10)%Z then last else digits fuel' (n / 10) ++ last
  end.

(** An integer below [2 ^ k] has at most [k] decimal digits. *)
Definition of_nonneg (n : Z) : string :=
  digits (S (Z.to_nat (Z.log2 n))) n.

(** The decimal rendering of an integer. *)
Definition of_Z (z : Z) : string :=
  if (z <? 0)%Z then "-" ++ of_nonneg (- z) else of_nonneg z.

Fixpoint zeros (n : nat) : string :=
  match n with
  | O => EmptyString
  | S n' => String "0" (zeros n')
  end.

End Dec.

(** ** Exceptions *)

Inductive ExecFailure : Type :=
| CommandNotFound
| TimedOut
| ExitStatus (code : Z).

Inductive Exn : Type :=
| FsError (path : string)
| ExecError (why : ExecFailure)
| SyntaxError
| TypeError.

Inductive Result (A : Type) : Type :=
| Ok (a : A)
| Throw (e : Exn).

Arguments Ok {A} a.
Arguments Throw {A} e.

Definition bind {A B : Type} (m : Result A) (k : A -> Result B) : Result B :=
  match m with
  | Ok a => k a
  | Throw e => Throw e
  end.

(** [try { body } catch { handler }] *)
Definition try_catch {A : Type} (body : Result A) (handler : Exn -> Result A)
  : Result A :=
  match body with
  | Ok a => Ok a
  | Throw e => handler e
  end.

Notation "x <- m ;; k" := (bind m (fun x => k))
  (at level 61, m at next level, right associativity).

(** ** JavaScript values and JSON documents *)

Inductive JsVal : Type :=
| VUndefined
| VNull
| VBool (b : bool)
| VNum (n : number)
| VStr (s : string)
| VArr (items : list JsVal)
| VObj (props : list (string * JsVal)).

(** What [JSON.stringify] writes: a JSON document, kept as its tree.  A
    number of a document is finite. *)
Inductive Json : Type :=
| JNull
| JBool (b : bool)
| JNum (q : Q)
| JStr (s : string)
| JArr (items : list Json)
| JObj (members : list (string * Json)).

Module Js.

Fixpoint assoc {A : Type} (k : string) (l : list (string * A)) : option A :=
  match l with
  | [] => None
  | (k', v) :: r => if String.eqb k k' then Some v else assoc k r
  end.

(** [v.k] for a property name that no prototype defines: [undefined]
    unless [v] is an object holding [k]; a [TypeError] on [null] and
    [undefined]. *)
Definition get (v : JsVal) (k : string) : Result JsVal :=
  match v with
  | VUndefined | VNull => Throw TypeError
  | VObj props =>
      Ok match assoc k props with Some x => x | None => VUndefined end
  | _ => Ok VUndefined
  end.

(** [a ?? b] *)
Definition nullish (a : JsVal) (b : Result JsVal) : Result JsVal :=
  match a with
  | VUndefined | VNull => b
  | _ => Ok a
  end.

(** [v === 'text'] *)
Definition is_string (v : JsVal) (text : string) : bool :=
  match v with
  | VStr s => String.eqb s text
  | _ => false
  end.

(** [JSON.stringify]: [None] is the [undefined] it returns for
    [undefined].  A property whose value is [undefined] is left out, an
    [undefined] array item and a number that is not finite are written
    [null]. *)
Fixpoint stringify (v : JsVal) : option Json :=
  match v with
  | VUndefined => None
  | VNull => Some JNull
  | VBool b => Some (JBool b)
  | VNum (Fin q) => Some (JNum q)
  | VNum _ => Some JNull
  | VStr s => Some (JStr s)
  | VArr items =>
      Some (JArr (map (fun x => match stringify x with
                                | Some j => j
                                | None => JNull
                                end) items))
  | VObj props =>
      Some (JObj ((fix members (l : list (string * JsVal)) :=
                     match l with
                     | [] => []
                     | (k, x) :: r =>
                         match stringify x with
                         | Some j => (k, j) :: members r
                         | None => members r
                         end
                     end) props))
  end.

(** The names of the members of a JSON object, in order. *)
Definition keys (j : Json) : list string :=
  match j with
  | JObj members => map fst members
  | _ => []
  end.

(** Member [k] of a JSON object. *)
Definition member (k : string) (j : Json) : option Json :=
  match j with
  | JObj members => assoc k members
  | _ => None
  end.

End Js.

(** ** The host *)

(** An entry of [os.cpus()]; the endpoint reads its [model] only. *)
Record CpuInfo : Type := { model : string }.

(** What running a command does: the shell does not find it, or it runs
    for some milliseconds and exits with a status and its standard
    output. *)
Inductive Program : Type :=
| NotInstalled
| Runs (elapsed_ms : Z) (exit_status : Z) (stdout : string).

(** Everything the endpoint reads from the machine it runs on.  A path
    of [files] with no content is one that [fs.readFileSync] fails on,
    whatever the cause. *)
Record Env : Type := {
  os_totalmem : N;
  os_freemem : N;
  os_loadavg : Q * Q * Q;
  os_cpus : list CpuInfo;
  os_platform : string;
  os_arch : string;
  os_hostname : string;
  os_uptime : Q;
  process_uptime : Q;
  date_now : string;
  files : string -> option string;
  programs : string -> Program
}.

(** [fs.readFileSync(path, 'utf8')] *)
Definition readFileSync (env : Env) (path : string) : Result string :=
  match files env path with
  | Some content => Ok content
  | None => Throw (FsError path)
  end.

(** [execSync(command, { timeout, encoding: 'utf8', ... })]: the output
    of the command, or an exception when the command is not found, is
    still running when the timeout expires, or exits with a status
    other than zero. *)
Definition execSync (env : Env) (command : string) (timeout : Z)
  : Result string :=
  match programs env command with
  | NotInstalled => Throw (ExecError CommandNotFound)
  | Runs elapsed_ms exit_status stdout =>
      if (timeout <? elapsed_ms)%Z then Throw (ExecError TimedOut)
      else if (exit_status =? 0)%Z then Ok stdout
      else Throw (ExecError (ExitStatus exit_status))
  end.

(** ** Local variables of a function

    [getBatteryInfo] assigns to its local variables inside [try]
    blocks, and an assignment made before an exception is kept: a
    statement is a function of the locals that returns them with its
    [Result]. *)

Definition Stmt (S A : Type) : Type := S -> S * Result A.

Module St.

Definition ret {S A : Type} (a : A) : Stmt S A := fun s => (s, Ok a).

Definition bind {S A B : Type} (m : Stmt S A) (k : A -> Stmt S B)
  : Stmt S B :=
  fun s =>
    match m s with
    | (s', Ok a) => k a s'
    | (s', Throw e) => (s', Throw e)
    end.

(** An expression that reads no local. *)
Definition eval {S A : Type} (r : Result A) : Stmt S A := fun s => (s, r).

Definition read {S : Type} : Stmt S S := fun s => (s, Ok s).

Definition assign {S : Type} (f : S -> S) : Stmt S unit :=
  fun s => (f s, Ok tt).

Definition try_catch {S A : Type} (body : Stmt S A)
  (handler : Exn -> Stmt S A) : Stmt S A :=
  fun s =>
    match body s with
    | (s', Ok a) => (s', Ok a)
    | (s', Throw e) => handler e s'
    end.

(** The function's result, its locals dropped at the return. *)
Definition run {S A : Type} (m : Stmt S A) (init : S) : Result A :=
  snd (m init).

End St.

Notation "x <~ m ;; k" := (St.bind m (fun x => k))
  (at level 61, m at next level, right associativity).

(** ** The endpoint *)

(** What [getBatteryInfo] returns, and its two local variables.  The
    declared type of [level] is [number | null]; the value assigned to
    it comes out of [JSON.parse] and is any value. *)
Record BatteryInfo : Type := { level : JsVal; charging : option bool }.

Definition set_level (v : JsVal) (b : BatteryInfo) : BatteryInfo :=
  {| level := v; charging := charging b |}.

Definition set_charging (c : option bool) (b : BatteryInfo) : BatteryInfo :=
  {| level := level b; charging := c |}.

(** The [Response] the handler builds: status, headers and the JSON
    document of the body. *)
Record Response : Type := {
  status : Z;
  headers : list (string * string);
  body : option Json
}.

Section Endpoint.

(** Two built-ins of the runtime are parameters: [Number::toString] on
    the numbers [ToString] does not render itself, and [JSON.parse]. *)
Variable Number_toString : Q -> string.
Variable JSON_parse : string -> Result JsVal.

Definition is_integer (q : Q) : bool := Qeq_bool (inject_Z (Qfloor q)) q.

Definition ten_pow_21 : Q := inject_Z (10 ^ 21).

(** [`${a}`]: an integer below [10 ^ 21] in magnitude is written in
    decimal digits. *)
Definition ToString (a : number) : string :=
  match a with
  | NaN => "NaN"
  | PInf => "Infinity"
  | NInf => "-Infinity"
  | Fin q =>
      if is_integer q && negb (Qle_bool ten_pow_21 (Qabs q))
      then Dec.of_Z (Qfloor q)
      else Number_toString q
  end.

(** [a.toFixed(fractionDigits)] *)
Definition toFixed (fractionDigits : nat) (a : number) : string :=
  match a with
  | Fin q =>
      let s := if Qle_bool 0 q then "" else "-" in
      let x := Qabs q in
      if Qle_bool ten_pow_21 x then s ++ Number_toString x
      else
        let n := Math.round_Q (x * inject_Z (10 ^ Z.of_nat fractionDigits)) in
        let m := Dec.of_nonneg n in
        if Nat.eqb fractionDigits 0 then s ++ m
        else
          let m :=
            if Nat.leb (String.length m) fractionDigits
            then Dec.zeros (fractionDigits + 1 - String.length m) ++ m
            else m in
          let k := String.length m in
          s ++ substring 0 (k - fractionDigits) m
            ++ "." ++ substring (k - fractionDigits) fractionDigits m
  | _ => ToString a
  end.

Definition formatBytes (bytes : number) : string :=
  let gb := Num.div bytes (Num.of_Z (1024 * 1024 * 1024)) in
  if Num.ge gb (Num.of_Z 1) then toFixed 2 gb ++ " GB"
  else
    let mb := Num.div bytes (Num.of_Z (1024 * 1024)) in
    toFixed 0 mb ++ " MB".

Definition formatUptime (seconds : number) : string :=
  let days := Math.floor (Num.div seconds (Num.of_Z 86400)) in
  let hours :=
    Math.floor (Num.div (Num.rem seconds (Num.of_Z 86400)) (Num.of_Z 3600)) in
  let minutes :=
    Math.floor (Num.div (Num.rem seconds (Num.of_Z 3600)) (Num.of_Z 60)) in
  let parts : list string := [] in
  let parts :=
    if Num.gt days (Num.of_Z 0) then (parts ++ [(ToString days ++ "d")%string])%list
    else parts in
  let parts :=
    if Num.gt hours (Num.of_Z 0) then (parts ++ [(ToString hours ++ "h")%string])%list
    else parts in
  let parts :=
    if Num.gt minutes (Num.of_Z 0) then (parts ++ [(ToString minutes ++ "m")%string])%list
    else parts in
  match Str.join " " parts with
  | EmptyString => "< 1m"
  | joined => joined
  end.

(** The function returns from inside its [try] block: the block yields
    [Some] of the value returned, or [None] when control leaves it
    without returning. *)
Definition getCpuCoreCount (env : Env) : Result Z :=
  returned <-
    try_catch
      (cpuinfo <- readFileSync env "/proc/cpuinfo" ;;
       let processors := Regex.count_lines "processor" true cpuinfo in
       if (0 <? processors)%nat then Ok (Some (Z.of_nat processors))
       else Ok None)
      (fun _ => Ok None) ;;
  match returned with
  | Some count => Ok count
  | None =>
      let cpus := os_cpus env in
      if (0 <? List.length cpus)%nat then Ok (Z.of_nat (List.length cpus))
      else Ok 8%Z
  end.

Definition getCpuModel (env : Env) : Result string :=
  returned <-
    try_catch
      (cpuinfo <- readFileSync env "/proc/cpuinfo" ;;
       match Regex.first_capture "Hardware" true cpuinfo with
       | Some hardware => Ok (Some (Str.trim hardware))
       | None =>
           match Regex.first_capture "model name" true cpuinfo with
           | Some name => Ok (Some (Str.trim name))
           | None => Ok None
           end
       end)
      (fun _ => Ok None) ;;
  match returned with
  | Some label => Ok label
  | None =>
      match os_cpus env with
      | {| model := String c m |} :: _ => Ok (String c m)
      | _ => Ok "Google Tensor G2"
      end
  end.

Definition thermalPaths : list string :=
  [ "/sys/class/thermal/thermal_zone0/temp";
    "/sys/devices/virtual/thermal/thermal_zone0/temp" ].

(** The [for] loop of [getCpuTemperature] over the paths left; [None]
    is [null]. *)
Fixpoint getCpuTemperature_from (env : Env) (paths : list string)
  : Result (option number) :=
  match paths with
  | path :: rest =>
      try_catch
        (content <- readFileSync env path ;;
         let temp := ParseInt.parseInt (Str.trim content) in
         Ok (Some (if Num.gt temp (Num.of_Z 1000)
                   then Num.div temp (Num.of_Z 1000)
                   else temp)))
        (fun _ => getCpuTemperature_from env rest)
  | [] => Ok None
  end.

Definition getCpuTemperature (env : Env) : Result (option number) :=
  getCpuTemperature_from env thermalPaths.

Definition batteryPaths : list string :=
  [ "/sys/class/power_supply/battery/capacity";
    "/sys/class/power_supply/BAT0/capacity" ].

Definition statusPaths : list string :=
  [ "/sys/class/power_supply/battery/status";
    "/sys/class/power_supply/BAT0/status" ].

(** Method 1: the body of the first [try] block.  It returns the
    locals when it reaches its end. *)
Definition battery_from_helper (env : Env)
  : Stmt BatteryInfo (option BatteryInfo) :=
  output <~ St.eval (execSync env "termux-battery-status" 3000) ;;
  batteryData <~ St.eval (JSON_parse output) ;;
  lvl <~ St.eval (percentage <- Js.get batteryData "percentage" ;;
                  Js.nullish percentage (Js.get batteryData "level")) ;;
  _ <~ St.assign (set_level lvl) ;;
  chg <~ St.eval (st <- Js.get batteryData "status" ;;
                  if Js.is_string st "CHARGING" then Ok true
                  else st' <- Js.get batteryData "status" ;;
                       Ok (Js.is_string st' "FULL")) ;;
  _ <~ St.assign (set_charging (Some chg)) ;;
  locals <~ St.read ;;
  St.ret (Some locals).

(** The first loop of method 2; a readable path ends it. *)
Fixpoint battery_level_from (env : Env) (paths : list string)
  : Stmt BatteryInfo unit :=
  match paths with
  | path :: rest =>
      broke <~
        St.try_catch
          (content <~ St.eval (readFileSync env path) ;;
           _ <~ St.assign
                  (set_level (VNum (ParseInt.parseInt (Str.trim content)))) ;;
           St.ret true)
          (fun _ => St.ret false) ;;
      if broke then St.ret tt else battery_level_from env rest
  | [] => St.ret tt
  end.

(** The second loop of method 2. *)
Fixpoint battery_charging_from (env : Env) (paths : list string)
  : Stmt BatteryInfo unit :=
  match paths with
  | path :: rest =>
      broke <~
        St.try_catch
          (content <~ St.eval (readFileSync env path) ;;
           let st := Str.toLowerCase (Str.trim content) in
           _ <~ St.assign
                  (set_charging
                     (Some (String.eqb st "charging" || String.eqb st "full"))) ;;
           St.ret true)
          (fun _ => St.ret false) ;;
      if broke then St.ret tt else battery_charging_from env rest
  | [] => St.ret tt
  end.

(** Method 2 as a whole, up to the final [return]. *)
Definition battery_from_sysfs (env : Env) : Stmt BatteryInfo BatteryInfo :=
  _ <~ battery_level_from env batteryPaths ;;
  _ <~ battery_charging_from env statusPaths ;;
  St.read.

Definition getBatteryInfo (env : Env) : Result BatteryInfo :=
  St.run
    (returned <~ St.try_catch (battery_from_helper env)
                   (fun _ => St.ret None) ;;
     match returned with
     | Some info => St.ret info
     | None => battery_from_sysfs env
     end)
    {| level := VNull; charging := None |}.

(** [Math.round((usedMem / totalMem) * 100)] *)
Definition memUsagePercent (usedMem totalMem : number) : number :=
  Math.round (Num.mul (Num.div usedMem totalMem) (Num.of_Z 100)).

(** [Math.min(100, Math.round((loadAvg[0] / cpuCount) * 100))] *)
Definition cpuUsagePercent (load cpuCount : number) : number :=
  Math.min (Num.of_Z 100)
    (Math.round (Num.mul (Num.div load cpuCount) (Num.of_Z 100))).

Definition value_of_temperature (t : option number) : JsVal :=
  match t with
  | Some n => VNum n
  | None => VNull
  end.

(** The object [{ level, charging }] that [getBatteryInfo] returns. *)
Definition value_of_battery (b : BatteryInfo) : JsVal :=
  VObj [ ("level", level b);
         ("charging", match charging b with
                      | Some c => VBool c
                      | None => VNull
                      end) ].

Definition response_headers : list (string * string) :=
  [ ("Content-Type", "application/json");
    ("Cache-Control", "no-cache, no-store, must-revalidate") ].

(** The object literal [stats], shared by the two versions of the
    handler. *)
Definition stats_object (env : Env) (totalMem usedMem freeMem : number)
  (memPercent : number) (cpuModel : string) (cpuCount cpuPercent : number)
  (loadAvg : list number) (cpuTemp : option number) (uptime : number)
  (battery : BatteryInfo) : JsVal :=
  VObj
    [ ("device",
       VObj [ ("name", VStr "Pixel 7");
              ("platform", VStr (os_platform env));
              ("arch", VStr (os_arch env));
              ("hostname", VStr (os_hostname env)) ]);
      ("memory",
       VObj [ ("total", VStr (formatBytes totalMem));
              ("used", VStr (formatBytes usedMem));
              ("free", VStr (formatBytes freeMem));
              ("usagePercent", VNum memPercent) ]);
      ("cpu",
       VObj [ ("model", VStr cpuModel);
              ("cores", VNum cpuCount);
              ("usagePercent", VNum cpuPercent);
              ("loadAvg", VArr (map (fun l => VStr (toFixed 2 l)) loadAvg));
              ("temperature", value_of_temperature cpuTemp) ]);
      ("system",
       VObj [ ("uptime", VStr (formatUptime uptime));
              ("uptimeSeconds", VNum (Math.floor uptime)) ]);
      ("battery", value_of_battery battery);
      ("timestamp", VStr (date_now env)) ].

(** [os.loadavg()] as the array of its three numbers. *)
Definition loadavg (env : Env) : list number :=
  let '(one, five, fifteen) := os_loadavg env in
  [Fin one; Fin five; Fin fifteen].

(** [loadAvg[0]] *)
Definition loadavg_1min (env : Env) : number :=
  let '(one, _, _) := os_loadavg env in Fin one.

(** The handler.  An [async] function, its [Result] is how its promise
    settles. *)
Definition GET (env : Env) : Result Response :=
  let totalMem := Num.of_Z (Z.of_N (os_totalmem env)) in
  let freeMem := Num.of_Z (Z.of_N (os_freemem env)) in
  let usedMem := Num.sub totalMem freeMem in
  let memPercent := memUsagePercent usedMem totalMem in
  let loadAvg := loadavg env in
  let uptime := Fin (process_uptime env) in
  cpuCount <- getCpuCoreCount env ;;
  cpuModel <- getCpuModel env ;;
  let cpuPercent := cpuUsagePercent (loadavg_1min env) (Num.of_Z cpuCount) in
  cpuTemp <- getCpuTemperature env ;;
  battery <- getBatteryInfo env ;;
  let stats :=
    stats_object env totalMem usedMem freeMem memPercent cpuModel
      (Num.of_Z cpuCount) cpuPercent loadAvg cpuTemp uptime battery in
  Ok {| status := 200;
        headers := response_headers;
        body := Js.stringify stats |}.

End Endpoint.

(** ** The version of the endpoint without the CPU probes and the
    battery helper

    The second text of [stats.json.ts]: the core count is the length of
    [os.cpus()], the uptime is the host's, and the battery is read from
    one pair of pseudo-files.  The formatters and the temperature probe
    are the same. *)

Module Plain.

Section Endpoint.

Variable Number_toString : Q -> string.

Definition getBatteryInfo (env : Env) : Result BatteryInfo :=
  St.run
    (St.try_catch
       (let levelPath := "/sys/class/power_supply/battery/capacity" in
        let statusPath := "/sys/class/power_supply/battery/status" in
        _ <~ St.try_catch
               (content <~ St.eval (readFileSync env levelPath) ;;
                St.assign
                  (set_level (VNum (ParseInt.parseInt (Str.trim content)))))
               (fun _ => St.ret tt) ;;
        _ <~ St.try_catch
               (content <~ St.eval (readFileSync env statusPath) ;;
                let st := Str.toLowerCase (Str.trim content) in
                St.assign
                  (set_charging
                     (Some (String.eqb st "charging" || String.eqb st "full"))))
               (fun _ => St.ret tt) ;;
        St.read)
       (fun _ => St.ret {| level := VNull; charging := None |}))
    {| level := VNull; charging := None |}.

Definition GET (env : Env) : Result Response :=
  let totalMem := Num.of_Z (Z.of_N (os_totalmem env)) in
  let freeMem := Num.of_Z (Z.of_N (os_freemem env)) in
  let usedMem := Num.sub totalMem freeMem in
  let memPercent := memUsagePercent usedMem totalMem in
  let cpus := os_cpus env in
  let loadAvg := loadavg env in
  let uptime := Fin (os_uptime env) in
  let cpuCount := Num.of_Z (Z.of_nat (List.length cpus)) in
  let cpuPercent := cpuUsagePercent (loadavg_1min env) cpuCount in
  cpuTemp <- getCpuTemperature env ;;
  battery <- getBatteryInfo env ;;
  let cpuModel :=
    match cpus with
    | {| model := String c m |} :: _ => String c m
    | _ => "Unknown"
    end in
  let stats :=
    stats_object Number_toString env totalMem usedMem freeMem memPercent
      cpuModel cpuCount cpuPercent loadAvg cpuTemp uptime battery in
  Ok {| status := 200;
        headers := response_headers;
        body := Js.stringify stats |}.

End Endpoint.

End Plain.

(** * Reference definitions

    What the statements below compare the code with. *)

(** The content of the first of the paths that can be read. *)
Fixpoint first_readable (env : Env) (paths : list string) : option string :=
  match paths with
  | path :: rest =>
      match files env path with
      | Some content => Some content
      | None => first_readable env rest
      end
  | [] => None
  end.

(** The test of method 2 on the content of a status pseudo-file. *)
Definition charging_of_status (content : string) : bool :=
  let st := Str.toLowerCase (Str.trim content) in
  String.eqb st "charging" || String.eqb st "full".

(** What method 2 leaves in the two locals, started from [null]s. *)
Definition sysfs_battery (env : Env) : BatteryInfo :=
  {| level :=
       match first_readable env batteryPaths with
       | Some content => VNum (ParseInt.parseInt (Str.trim content))
       | None => VNull
       end;
     charging :=
       match first_readable env statusPaths with
       | Some content => Some (charging_of_status content)
       | None => None
       end |}.


(** What method 1 reads: the level and the charging flag, when the
    helper ran to its end in time and its output parsed to a value that
    has properties. *)
Definition helper_reading (JSON_parse : string -> Result JsVal) (env : Env)
  : Result (JsVal * bool) :=
  output <- execSync env "termux-battery-status" 3000 ;;
  batteryData <- JSON_parse output ;;
  percentage <- Js.get batteryData "percentage" ;;
  lvl <- Js.nullish percentage (Js.get batteryData "level") ;;
  st <- Js.get batteryData "status" ;;
  Ok (lvl, Js.is_string st "CHARGING" || Js.is_string st "FULL").

(** A number as [JSON.stringify] writes it. *)
Definition json_of_number (n : number) : Json :=
  match n with
  | Fin q => JNum q
  | _ => JNull
  end.

Definition json_of_temperature (t : option number) : Json :=
  match t with
  | Some n => json_of_number n
  | None => JNull
  end.

Definition json_of_charging (c : option bool) : Json :=
  match c with
  | Some b => JBool b
  | None => JNull
  end.

(** The members of the serialised battery object: [level] is there
    unless its value is [undefined]. *)
Definition battery_members (b : BatteryInfo) : list (string * Json) :=
  match Js.stringify (level b) with
  | Some j => [("level", j); ("charging", json_of_charging (charging b))]
  | None => [("charging", json_of_charging (charging b))]
  end.

(** The JSON document of the [stats] object. *)
Definition stats_json (Number_toString : Q -> string) (env : Env)
  (totalMem usedMem freeMem memPercent : number) (cpuModel : string)
  (cpuCount cpuPercent : number) (cpuTemp : option number) (uptime : number)
  (battery : BatteryInfo) : Json :=
  JObj
    [ ("device",
       JObj [ ("name", JStr "Pixel 7");
              ("platform", JStr (os_platform env));
              ("arch", JStr (os_arch env));
              ("hostname", JStr (os_hostname env)) ]);
      ("memory",
       JObj [ ("total", JStr (formatBytes Number_toString totalMem));
              ("used", JStr (formatBytes Number_toString usedMem));
              ("free", JStr (formatBytes Number_toString freeMem));
              ("usagePercent", json_of_number memPercent) ]);
      ("cpu",
       JObj [ ("model", JStr cpuModel);
              ("cores", json_of_number cpuCount);
              ("usagePercent", json_of_number cpuPercent);
              ("loadAvg",
               JArr (map (fun l => JStr (toFixed Number_toString 2 l))
                       (loadavg env)));
              ("temperature", json_of_temperature cpuTemp) ]);
      ("system",
       JObj [ ("uptime", JStr (formatUptime Number_toString uptime));
              ("uptimeSeconds", json_of_number (Math.floor uptime)) ]);
      ("battery", JObj (battery_members battery));
      ("timestamp", JStr (date_now env)) ].

(** Member [inner] of member [outer] of the body of a response. *)
Definition body_field (outer inner : string) (r : Response) : option Json :=
  match body r with
  | Some doc =>
      match Js.member outer doc with
      | Some obj => Js.member inner obj
      | None => None
      end
  | None => None
  end.

(** The names of the top-level members of the body of a response. *)
Definition body_keys (r : Response) : list string :=
  match body r with
  | Some doc => Js.keys doc
  | None => []
  end.

(** The names of the members of member [outer] of the body. *)
Definition body_keys_of (outer : string) (r : Response) : list string :=
  match body r with
  | Some doc =>
      match Js.member outer doc with
      | Some obj => Js.keys obj
      | None => []
      end
  | None => []
  end.

(** The number of [processor] lines of [/proc/cpuinfo], when the file
    can be read. *)
Definition processor_lines (env : Env) : option nat :=
  match files env "/proc/cpuinfo" with
  | Some cpuinfo => Some (Regex.count_lines "processor" true cpuinfo)
  | None => None
  end.

(** * Example hosts *)

Definition newline : string := String "010"%char EmptyString.

(** The two built-ins, for the examples: no example reaches
    [Number::toString], and the helper of the examples prints one of
    two texts. *)
Definition example_Number_toString (q : Q) : string := "1e+21".

Definition example_JSON_parse (text : string) : Result JsVal :=
  if String.eqb text "{}" then Ok (VObj [])
  else if String.eqb text "null" then Ok VNull
  else Throw SyntaxError.

(** A server: 8 GiB of memory, half of it free, four cores, none of
    the pseudo-files and no helper. *)
Definition server : Env :=
  {| os_totalmem := 8589934592;
     os_freemem := 4294967296;
     os_loadavg := (1 # 2, 1 # 4, 1 # 8)%Q;
     os_cpus := [ {| model := "Xeon" |}; {| model := "Xeon" |};
                  {| model := "Xeon" |}; {| model := "Xeon" |} ];
     os_platform := "linux";
     os_arch := "x64";
     os_hostname := "server";
     os_uptime := 90000;
     process_uptime := 3725;
     date_now := "2024-01-05T00:00:00.000Z";
     files := fun _ => None;
     programs := fun _ => NotInstalled |}.

Definition with_files (f : string -> option string) (env : Env) : Env :=
  {| os_totalmem := os_totalmem env;
     os_freemem := os_freemem env;
     os_loadavg := os_loadavg env;
     os_cpus := os_cpus env;
     os_platform := os_platform env;
     os_arch := os_arch env;
     os_hostname := os_hostname env;
     os_uptime := os_uptime env;
     process_uptime := process_uptime env;
     date_now := date_now env;
     files := f;
     programs := programs env |}.

Definition with_programs (p : string -> Program) (env : Env) : Env :=
  {| os_totalmem := os_totalmem env;
     os_freemem := os_freemem env;
     os_loadavg := os_loadavg env;
     os_cpus := os_cpus env;
     os_platform := os_platform env;
     os_arch := os_arch env;
     os_hostname := os_hostname env;
     os_uptime := os_uptime env;
     process_uptime := process_uptime env;
     date_now := date_now env;
     files := files env;
     programs := p |}.

(** A file system holding the listed files and no other. *)
Definition only_files (l : list (string * string)) (path : string)
  : option string :=
  Js.assoc path l.

(** A phone: the first thermal zone reads 45000 millidegrees. *)
Definition phone_thermal : Env :=
  with_files
    (only_files
       [ ("/sys/class/thermal/thermal_zone0/temp", "45000" ++ newline) ])
    server.

(** A host whose second thermal zone alone can be read, in degrees. *)
Definition second_zone_in_degrees : Env :=
  with_files
    (only_files
       [ ("/sys/devices/virtual/thermal/thermal_zone0/temp",
          "45" ++ newline) ])
    server.

(** A host with no battery pseudo-file whose helper hangs for five
    seconds. *)
Definition helper_hangs : Env :=
  with_programs (fun _ => Runs 5000 0 "{}") server.

(** A phone without the helper: the first capacity and status files
    can be read. *)
Definition phone_sysfs : Env :=
  with_files
    (only_files
       [ ("/sys/class/power_supply/battery/capacity", "85" ++ newline);
         ("/sys/class/power_supply/battery/status", "Charging" ++ newline) ])
    server.

(** A phone whose helper prints an object with no field, while the
    capacity and status files can be read. *)
Definition helper_prints_empty_object : Env :=
  with_programs (fun _ => Runs 120 0 "{}") phone_sysfs.


(** The six top-level keys of the snapshot. *)
Definition snapshot_keys : list string :=
  [ "device"; "memory"; "cpu"; "system"; "battery"; "timestamp" ].

(** Member [k] of the body of a response. *)
Definition body_member (k : string) (r : Response) : option Json :=
  match body r with
  | Some doc => Js.member k doc
  | None => None
  end.

(** [r] is the integer closest to [q], the larger one of two. *)
Definition nearest_integer (r : Z) (q : Q) : Prop :=
  (inject_Z r - (1 # 2) <= q < inject_Z r + (1 # 2))%Q.


(** The 1-minute load average of a host. *)
Definition load_1min (env : Env) : Q := fst (fst (os_loadavg env)).


(** Two cores and a hardware label, as an Android kernel prints them. *)
Definition cpuinfo_two_cores : string :=
  "processor" ++ String "009"%char ": 0" ++ newline
  ++ "BogoMIPS" ++ String "009"%char ": 49.15" ++ newline
  ++ newline
  ++ "processor" ++ String "009"%char ": 1" ++ newline
  ++ "BogoMIPS" ++ String "009"%char ": 49.15" ++ newline
  ++ newline
  ++ "Hardware" ++ String "009"%char ": GS201 " ++ newline.

(** * Reference definitions for the further properties *)

(** A unit of the uptime text: the number before its letter, when it is
    positive. *)
Definition unit_text (v : Z) (suffix : string) : list string :=
  if (0 <? v)%Z then [Dec.of_nonneg v ++ suffix] else [].

(** The uptime text of whole days, hours and minutes. *)
Definition uptime_text (d h m : Z) : string :=
  match (unit_text d "d" ++ unit_text h "h" ++ unit_text m "m")%list with
  | [] => "< 1m"
  | units => Str.join " " units
  end.

(** The capture of the first line of [/proc/cpuinfo] with the label,
    when the file can be read and has one. *)
Definition cpuinfo_capture (label : string) (env : Env) : option string :=
  match files env "/proc/cpuinfo" with
  | Some cpuinfo => Regex.first_capture label true cpuinfo
  | None => None
  end.


(** A count of hundredths written with two decimals. *)
Definition hundredths (n : Z) : string :=
  Dec.of_nonneg (n / 100) ++ "."
  ++ String (Dec.digit_char ((n / 10) mod 10))
       (String (Dec.digit_char (n mod 10)) EmptyString).

(** The 5-minute and 15-minute load averages of a host. *)
Definition load_5min (env : Env) : Q := snd (fst (os_loadavg env)).

Definition load_15min (env : Env) : Q := snd (os_loadavg env).

(** Decimal digits, and a test on every character of a string. *)
Definition is_decimal_digit (c : ascii) : bool :=
  let n := Str.code c in ((48 <=? n) && (n <=? 57))%N.

Fixpoint string_forall (p : ascii -> bool) (s : string) : bool :=
  match s with
  | String c r => p c && string_forall p r
  | EmptyString => true
  end.

(** A text made of lines, each ended by a newline. *)
Definition unlines (ls : list string) : string :=
  fold_right (fun l acc => l ++ newline ++ acc) EmptyString ls.

Definition no_line_terminator (l : string) : bool :=
  string_forall (fun c => negb (Str.is_line_terminator c)) l.

(** A line on which [processor\s*:] matches at its start. *)
Definition processor_line (l : string) : bool :=
  match Regex.label_colon "processor" l with
  | Some _ => true
  | None => false
  end.

(** A line that is [processor] and blanks only: whether it matches
    depends on the lines below it. *)
Definition label_alone (l : string) : bool :=
  match Str.strip_prefix "processor" l with
  | Some r =>
      match Regex.skip_spaces r with
      | EmptyString => true
      | _ => false
      end
  | None => false
  end.

(** * Further example hosts *)

(** The server with its list of [os.cpus()] emptied. *)
Definition without_cpus : Env :=
  {| os_totalmem := os_totalmem server;
     os_freemem := os_freemem server;
     os_loadavg := os_loadavg server;
     os_cpus := [];
     os_platform := os_platform server;
     os_arch := os_arch server;
     os_hostname := os_hostname server;
     os_uptime := os_uptime server;
     process_uptime := process_uptime server;
     date_now := date_now server;
     files := files server;
     programs := programs server |}.

(** The server when the OS cannot tell its memory. *)
Definition without_memory_counts : Env :=
  {| os_totalmem := 0;
     os_freemem := 0;
     os_loadavg := os_loadavg server;
     os_cpus := os_cpus server;
     os_platform := os_platform server;
     os_arch := os_arch server;
     os_hostname := os_hostname server;
     os_uptime := os_uptime server;
     process_uptime := process_uptime server;
     date_now := date_now server;
     files := files server;
     programs := programs server |}.

(** A laptop: its battery is [BAT0], and there is no helper. *)
Definition laptop : Env :=
  with_files
    (only_files
       [ ("/sys/class/power_supply/BAT0/capacity", "85" ++ newline) ])
    server.






(** Hosts whose helper ends in time with status 1, or prints [null]. *)
Definition helper_exits_1 : Env :=
  with_programs (fun _ => Runs 10 1 "") phone_sysfs.

Definition helper_prints_null : Env :=
  with_programs (fun _ => Runs 10 0 "null") phone_sysfs.

(** The lines of a [/proc/cpuinfo] with two cores. *)
Definition cpuinfo_lines : list string :=
  [ "processor" ++ String "009"%char ": 0";
    "BogoMIPS" ++ String "009"%char ": 49.15";
    "";
    "processor" ++ String "009"%char ": 1";
    "BogoMIPS" ++ String "009"%char ": 49.15";
    "";
    "Hardware" ++ String "009"%char ": GS201 " ].

Definition two_cores : Env :=
  with_files (only_files [("/proc/cpuinfo", unlines cpuinfo_lines)]) without_cpus.
(** * Properties *)

(** ** Rounding *)

Lemma round_Q_bounds (q : Q) :
  (inject_Z (Math.round_Q q) - (1 # 2) <= q
   < inject_Z (Math.round_Q q) + (1 # 2))%Q.
Proof.
  unfold Math.round_Q.
  pose proof (Qfloor_le q) as Hlo.
  pose proof (Qlt_floor q) as Hhi.
  rewrite inject_Z_plus in Hhi.
  destruct (Qle_bool (1 # 2) (q - inject_Z (Qfloor q))) eqn:E.
  - apply Qle_bool_iff in E. rewrite inject_Z_plus.
    change (inject_Z 1) with 1%Q in *. split; lra.
  - assert (~ (1 # 2 <= q - inject_Z (Qfloor q))%Q) as N.
    { intro H. apply Qle_bool_iff in H. congruence. }
    change (inject_Z 1) with 1%Q in *. split; lra.
Qed.

Lemma round_Q_comp (p q : Q) : (p == q)%Q -> Math.round_Q p = Math.round_Q q.
Proof.
  intro H. unfold Math.round_Q.
  rewrite (Qfloor_comp _ _ H).
  replace (Qle_bool (1 # 2) (p - inject_Z (Qfloor q)))
    with (Qle_bool (1 # 2) (q - inject_Z (Qfloor q))); [reflexivity|].
  apply eq_true_iff_eq. rewrite !Qle_bool_iff. rewrite H. reflexivity.
Qed.


Lemma inject_Z_pos (d : Z) : (0 < d)%Z -> (0 < inject_Z d)%Q.
Proof. intro H. change 0%Q with (inject_Z 0). rewrite <- Zlt_Qlt. exact H. Qed.

Lemma Qcompare_inject_Z (a b : Z) :
  (inject_Z a ?= inject_Z b)%Q = (a ?= b)%Z.
Proof. unfold Qcompare. cbn. rewrite !Z.mul_1_r. reflexivity. Qed.


(** ** The probes return *)

Lemma getCpuTemperature_from_first_readable (env : Env) (paths : list string) :
  getCpuTemperature_from env paths =
  Ok match first_readable env paths with
     | Some content =>
         let temp := ParseInt.parseInt (Str.trim content) in
         Some (if Num.gt temp (Num.of_Z 1000)
               then Num.div temp (Num.of_Z 1000)
               else temp)
     | None => None
     end.
Proof.
  induction paths as [|path rest IH]; [reflexivity|].
  cbn [getCpuTemperature_from first_readable].
  unfold readFileSync.
  destruct (files env path) as [content|]; [reflexivity|exact IH].
Qed.

Lemma battery_level_from_first_readable (env : Env) (paths : list string)
  (locals : BatteryInfo) :
  battery_level_from env paths locals =
  (match first_readable env paths with
   | Some content =>
       set_level (VNum (ParseInt.parseInt (Str.trim content))) locals
   | None => locals
   end, Ok tt).
Proof.
  induction paths as [|path rest IH]; [reflexivity|].
  cbn [battery_level_from first_readable].
  unfold St.bind, St.try_catch, St.eval, St.assign, St.ret, readFileSync.
  destruct (files env path) as [content|]; [reflexivity|exact IH].
Qed.

Lemma battery_charging_from_first_readable (env : Env) (paths : list string)
  (locals : BatteryInfo) :
  battery_charging_from env paths locals =
  (match first_readable env paths with
   | Some content => set_charging (Some (charging_of_status content)) locals
   | None => locals
   end, Ok tt).
Proof.
  induction paths as [|path rest IH]; [reflexivity|].
  cbn [battery_charging_from first_readable].
  unfold St.bind, St.try_catch, St.eval, St.assign, St.ret, readFileSync.
  destruct (files env path) as [content|]; [reflexivity|exact IH].
Qed.

Lemma battery_from_sysfs_run (env : Env) :
  battery_from_sysfs env {| level := VNull; charging := None |} =
  (sysfs_battery env, Ok (sysfs_battery env)).
Proof.
  unfold battery_from_sysfs, St.bind.
  rewrite battery_level_from_first_readable.
  rewrite battery_charging_from_first_readable.
  unfold sysfs_battery, St.read.
  destruct (first_readable env batteryPaths);
    destruct (first_readable env statusPaths); reflexivity.
Qed.

Section Properties.

Variable Number_toString : Q -> string.
Variable JSON_parse : string -> Result JsVal.

(** A value whose properties can be read: neither [null] nor
    [undefined]. *)
Lemma get_after_get (v : JsVal) (k k' : string) (x : JsVal) :
  Js.get v k = Ok x -> exists x', Js.get v k' = Ok x'.
Proof.
  destruct v; cbn; try discriminate; eauto.
Qed.

(** [getBatteryInfo] by cases on method 1: what the helper says when it
    can be read, what the pseudo-files say when it cannot. *)
Lemma getBatteryInfo_cases (env : Env) :
  getBatteryInfo JSON_parse env =
  match helper_reading JSON_parse env with
  | Ok (lvl, chg) => Ok {| level := lvl; charging := Some chg |}
  | Throw _ => Ok (sysfs_battery env)
  end.
Proof.
  unfold getBatteryInfo, helper_reading, battery_from_helper, St.run.
  unfold St.bind at 1. unfold St.try_catch.
  unfold St.bind, St.eval, St.assign, St.read, St.ret.
  destruct (execSync env "termux-battery-status" 3000) as [output|e]; cbn.
  2: { rewrite battery_from_sysfs_run. reflexivity. }
  destruct (JSON_parse output) as [batteryData|e]; cbn.
  2: { rewrite battery_from_sysfs_run. reflexivity. }
  destruct (Js.get batteryData "percentage") as [percentage|e] eqn:Hp; cbn.
  2: { rewrite battery_from_sysfs_run. reflexivity. }
  destruct (get_after_get _ _ "level" _ Hp) as [l Hl].
  destruct (get_after_get _ _ "status" _ Hp) as [s Hs].
  rewrite Hl, Hs.
  assert (exists lvl, Js.nullish percentage (Ok l) = Ok lvl) as [lvl Hlvl].
  { destruct percentage; cbn; eauto. }
  rewrite Hlvl. cbn.
  destruct (Js.is_string s "CHARGING"); reflexivity.
Qed.

Lemma getBatteryInfo_returns (env : Env) :
  exists b, getBatteryInfo JSON_parse env = Ok b.
Proof.
  rewrite getBatteryInfo_cases.
  destruct (helper_reading JSON_parse env) as [[lvl chg]|e]; eauto.
Qed.

Lemma getCpuTemperature_returns (env : Env) :
  exists t, getCpuTemperature env = Ok t.
Proof.
  unfold getCpuTemperature.
  rewrite getCpuTemperature_from_first_readable. eauto.
Qed.

Lemma getCpuCoreCount_returns (env : Env) :
  exists n, getCpuCoreCount env = Ok n /\ (0 < n)%Z.
Proof.
  unfold getCpuCoreCount, readFileSync, try_catch, bind.
  destruct (files env "/proc/cpuinfo") as [cpuinfo|].
  - destruct (Regex.count_lines "processor" true cpuinfo) as [|k] eqn:E.
    + destruct (os_cpus env) as [|c l]; cbn -[Z.of_nat];
        eexists; (split; [reflexivity|lia]).
    + cbn -[Z.of_nat]. eexists. split; [reflexivity|lia].
  - destruct (os_cpus env) as [|c l]; cbn -[Z.of_nat];
      eexists; (split; [reflexivity|lia]).
Qed.

Lemma getCpuModel_returns (env : Env) :
  exists label, getCpuModel env = Ok label.
Proof.
  unfold getCpuModel, readFileSync, try_catch, bind.
  destruct (files env "/proc/cpuinfo") as [cpuinfo|].
  - destruct (Regex.first_capture "Hardware" true cpuinfo);
      [cbn; eauto|].
    destruct (Regex.first_capture "model name" true cpuinfo);
      [cbn; eauto|].
    destruct (os_cpus env) as [|[[|c m]] l]; cbn; eauto.
  - destruct (os_cpus env) as [|[[|c m]] l]; cbn; eauto.
Qed.

(** ** The assembled snapshot *)

Lemma stringify_number (n : number) :
  Js.stringify (VNum n) = Some (json_of_number n).
Proof. destruct n; reflexivity. Qed.

(** What [JSON.stringify] makes of the [stats] object. *)
Lemma stringify_stats (env : Env)
  (totalMem usedMem freeMem memPercent : number) (cpuModel : string)
  (cpuCount cpuPercent : number) (cpuTemp : option number) (uptime : number)
  (battery : BatteryInfo) :
  Js.stringify
    (stats_object Number_toString env totalMem usedMem freeMem memPercent
       cpuModel cpuCount cpuPercent (loadavg env) cpuTemp uptime battery) =
  Some (stats_json Number_toString env totalMem usedMem freeMem memPercent
          cpuModel cpuCount cpuPercent cpuTemp uptime battery).
Proof.
  pose proof (stringify_number memPercent) as Hmem.
  pose proof (stringify_number cpuCount) as Hcount.
  pose proof (stringify_number cpuPercent) as Hcpu.
  pose proof (stringify_number (Math.floor uptime)) as Hup.
  assert (Js.stringify (value_of_temperature cpuTemp)
          = Some (json_of_temperature cpuTemp)) as Htemp
    by (destruct cpuTemp as [[]|]; reflexivity).
  unfold stats_object, stats_json, value_of_battery, battery_members.
  cbn [Js.stringify] in *.
  rewrite Hmem, Hcount, Hcpu, Hup, Htemp, map_map.
  destruct (Js.stringify (level battery));
    destruct (charging battery); reflexivity.
Qed.

(** The handler runs every probe and answers with status 200 and the
    document of the snapshot that holds what each probe returned. *)
Lemma GET_assembles (env : Env) :
  exists (cpuCount : Z) (cpuModel : string) (cpuTemp : option number)
         (battery : BatteryInfo),
    getCpuCoreCount env = Ok cpuCount /\ (0 < cpuCount)%Z /\
    getCpuModel env = Ok cpuModel /\
    getCpuTemperature env = Ok cpuTemp /\
    getBatteryInfo JSON_parse env = Ok battery /\
    GET Number_toString JSON_parse env =
    Ok {| status := 200;
          headers := response_headers;
          body :=
            let totalMem := Num.of_Z (Z.of_N (os_totalmem env)) in
            let freeMem := Num.of_Z (Z.of_N (os_freemem env)) in
            let usedMem := Num.sub totalMem freeMem in
            Some (stats_json Number_toString env totalMem usedMem freeMem
                    (memUsagePercent usedMem totalMem) cpuModel
                    (Num.of_Z cpuCount)
                    (cpuUsagePercent (loadavg_1min env) (Num.of_Z cpuCount))
                    cpuTemp (Fin (process_uptime env)) battery) |}.
Proof.
  destruct (getCpuCoreCount_returns env) as (cpuCount & Hcount & Hpos).
  destruct (getCpuModel_returns env) as (cpuModel & Hmodel).
  destruct (getCpuTemperature_returns env) as (cpuTemp & Htemp).
  destruct (getBatteryInfo_returns env) as (battery & Hbattery).
  exists cpuCount, cpuModel, cpuTemp, battery.
  repeat (split; [assumption|]).
  unfold GET. rewrite Hcount, Hmodel, Htemp, Hbattery.
  cbn [bind]. rewrite stringify_stats. reflexivity.
Qed.

End Properties.

(** ** The CPU core count *)

(** C8.  The core-count probe never throws and returns a positive
    count, chosen in this order: the number of [processor] lines of
    [/proc/cpuinfo] when the file can be read and has one at least;
    when it cannot be read or has none, the length of [os.cpus()]; and
    the default 8 only when that list is empty too. *)
Theorem getCpuCoreCount_fallback_chain (env : Env) :
  exists n : Z,
    getCpuCoreCount env = Ok n /\ (0 < n)%Z /\
    (forall k, processor_lines env = Some (S k) -> n = Z.of_nat (S k)) /\
    (processor_lines env = None \/ processor_lines env = Some 0%nat ->
     (os_cpus env <> [] -> n = Z.of_nat (List.length (os_cpus env))) /\
     (os_cpus env = [] -> n = 8%Z)).
Proof.
  unfold processor_lines, getCpuCoreCount, readFileSync, try_catch, bind.
  destruct (files env "/proc/cpuinfo") as [cpuinfo|].
  - destruct (Regex.count_lines "processor" true cpuinfo) as [|k].
    + destruct (os_cpus env) as [|c l]; cbn -[Z.of_nat]; eexists;
        (split; [reflexivity|]); (split; [lia|]);
        (split; [intros k' H; discriminate|]);
        intros _; split; congruence.
    + cbn -[Z.of_nat]. eexists.
      split; [reflexivity|]. split; [lia|].
      split; [intros k' H; congruence|].
      intros [H|H]; discriminate.
  - destruct (os_cpus env) as [|c l]; cbn -[Z.of_nat]; eexists;
      (split; [reflexivity|]); (split; [lia|]);
      (split; [intros k' H; discriminate|]);
      intros _; split; congruence.
Qed.

(** ** The temperature *)

Lemma first_readable_none (env : Env) (paths : list string) :
  (forall path, In path paths -> files env path = None) ->
  first_readable env paths = None.
Proof.
  induction paths as [|p rest IH]; intros H; [reflexivity|].
  cbn. rewrite (H p (or_introl eq_refl)).
  apply IH. intros q Hq. apply H. right. exact Hq.
Qed.

Lemma first_readable_split (env : Env) (before after : list string)
  (path content : string) :
  (forall p, In p before -> files env p = None) ->
  files env path = Some content ->
  first_readable env (before ++ path :: after)%list = Some content.
Proof.
  induction before as [|p rest IH]; intros Hnone Hsome; cbn.
  - rewrite Hsome. reflexivity.
  - rewrite (Hnone p (or_introl eq_refl)).
    apply IH; [|exact Hsome]. intros q Hq. apply Hnone. right. exact Hq.
Qed.

(** C6.  The temperature probe returns what [parseInt] reads in the
    first candidate path that can be read: an integer above 1000 is
    divided by 1000, any other is returned as it is; 45000 and 45 both
    give 45; and the probe returns [null] when no candidate path can be
    read. *)
Theorem getCpuTemperature_first_readable_scaled (env : Env) :
  (forall before path after content n,
      thermalPaths = (before ++ path :: after)%list ->
      (forall p, In p before -> files env p = None) ->
      files env path = Some content ->
      ParseInt.parseInt (Str.trim content) = Num.of_Z n ->
      exists q,
        getCpuTemperature env = Ok (Some (Fin q)) /\
        (q == if (1000 <? n)%Z then inject_Z n / 1000 else inject_Z n)%Q) /\
  (forall content,
      first_readable env thermalPaths = Some content ->
      Str.trim content = "45000" \/ Str.trim content = "45" ->
      getCpuTemperature env = Ok (Some (Num.of_Z 45))) /\
  ((forall path, In path thermalPaths -> files env path = None) ->
   getCpuTemperature env = Ok None).
Proof.
  unfold getCpuTemperature.
  rewrite getCpuTemperature_from_first_readable.
  split; [|split].
  - intros before path after content n Hpaths Hbefore Hpath Hparse.
    rewrite Hpaths, (first_readable_split _ _ _ _ _ Hbefore Hpath).
    cbv zeta. rewrite Hparse.
    unfold Num.gt, Num.div, Num.of_Z, Num.sign_of.
    rewrite Qcompare_inject_Z.
    destruct (Z.ltb_spec 1000 n) as [Hgt|Hle].
    + apply Z.lt_gt in Hgt. rewrite Hgt.
      change (inject_Z 1000 ?= 0)%Q with Gt.
      eexists. split; [reflexivity|]. apply Qred_correct.
    + destruct (n ?= 1000)%Z eqn:E;
        try (apply Z.compare_gt_iff in E; lia);
        eexists; (split; [reflexivity|reflexivity]).
  - intros content Hfirst [Htrim|Htrim]; rewrite Hfirst; cbv zeta;
      rewrite Htrim; reflexivity.
  - intros Hnone. rewrite (first_readable_none _ _ Hnone). reflexivity.
Qed.

(** The two readings of C6, on a host each. *)
Lemma getCpuTemperature_first_readable_scaled_witness :
  getCpuTemperature phone_thermal = Ok (Some (Num.of_Z 45)) /\
  getCpuTemperature second_zone_in_degrees = Ok (Some (Num.of_Z 45)) /\
  getCpuTemperature server = Ok None.
Proof.
  split; [|split].
  - apply (proj1 (proj2 (getCpuTemperature_first_readable_scaled
                           phone_thermal)) ("45000" ++ newline));
      [reflexivity|left; reflexivity].
  - apply (proj1 (proj2 (getCpuTemperature_first_readable_scaled
                           second_zone_in_degrees)) ("45" ++ newline));
      [reflexivity|right; reflexivity].
  - apply (proj2 (proj2 (getCpuTemperature_first_readable_scaled server))).
    intros path _. reflexivity.
Defined.

(** ** The battery *)

(** C3.  When the helper is not installed, runs past its timeout of
    3000 ms, or prints what [JSON.parse] rejects, the battery probe
    reads the candidate pseudo-files instead: each of the two values is
    taken from the first path of its list that can be read, and is
    [null] when none can.  With no helper and no readable path the
    probe returns [level] and [charging] both [null]; it does not
    throw. *)
Theorem getBatteryInfo_falls_back_to_sysfs
  (JSON_parse : string -> Result JsVal) (env : Env) :
  (programs env "termux-battery-status" = NotInstalled \/
   (exists elapsed exit_status output,
       programs env "termux-battery-status"
       = Runs elapsed exit_status output /\ (3000 < elapsed)%Z) \/
   (exists elapsed output e,
       programs env "termux-battery-status" = Runs elapsed 0 output /\
       (elapsed <= 3000)%Z /\ JSON_parse output = Throw e)) ->
  getBatteryInfo JSON_parse env =
  Ok {| level :=
          match first_readable env batteryPaths with
          | Some content => VNum (ParseInt.parseInt (Str.trim content))
          | None => VNull
          end;
        charging :=
          match first_readable env statusPaths with
          | Some content =>
              let st := Str.toLowerCase (Str.trim content) in
              Some (String.eqb st "charging" || String.eqb st "full")
          | None => None
          end |} /\
  ((forall path, In path (batteryPaths ++ statusPaths)%list ->
                 files env path = None) ->
   getBatteryInfo JSON_parse env = Ok {| level := VNull; charging := None |}).
Proof.
  intros Hhelper.
  assert (exists e, helper_reading JSON_parse env = Throw e) as [e He].
  { unfold helper_reading, execSync.
    destruct Hhelper as [H|[(t & c & out & H & Ht)|(t & out & e & H & Ht & Hp)]];
      rewrite H.
    - eexists. reflexivity.
    - apply Z.ltb_lt in Ht. rewrite Ht. eexists. reflexivity.
    - apply Z.ltb_ge in Ht. rewrite Ht. cbn. rewrite Hp. eexists. reflexivity. }
  rewrite getBatteryInfo_cases, He.
  split; [reflexivity|].
  intros Hnone. unfold sysfs_battery.
  rewrite !first_readable_none; [reflexivity| |];
    intros path Hin; apply Hnone; apply in_or_app; auto.
Qed.

(** C3 on a host with no helper and none of the files, and on a host
    whose helper runs for five seconds. *)
Lemma getBatteryInfo_falls_back_to_sysfs_witness :
  getBatteryInfo example_JSON_parse server
  = Ok {| level := VNull; charging := None |} /\
  getBatteryInfo example_JSON_parse helper_hangs
  = Ok {| level := VNull; charging := None |}.
Proof.
  split.
  - apply (getBatteryInfo_falls_back_to_sysfs example_JSON_parse server).
    + left. reflexivity.
    + intros path _. reflexivity.
  - apply (getBatteryInfo_falls_back_to_sysfs example_JSON_parse helper_hangs).
    + right. left. exists 5000%Z, 0%Z, "{}". split; [reflexivity|lia].
    + intros path _. reflexivity.
Defined.

Lemma body_keys_of_battery (Number_toString : Q -> string) (env : Env)
  (totalMem usedMem freeMem memPercent : number) (cpuModel : string)
  (cpuCount cpuPercent : number) (cpuTemp : option number) (uptime : number)
  (battery : BatteryInfo) (code : Z) (hdrs : list (string * string)) :
  body_keys_of "battery"
    {| status := code; headers := hdrs;
       body := Some (stats_json Number_toString env totalMem usedMem freeMem
                       memPercent cpuModel cpuCount cpuPercent cpuTemp uptime
                       battery) |}
  = map fst (battery_members battery).
Proof. reflexivity. Qed.

(** C10.  When the helper exits with status 0 within 3000 ms and its
    output parses to an object with neither [percentage] nor [level],
    the battery probe returns at once with [level] [undefined]: the
    pseudo-files play no part, whatever they hold, and the battery
    object of the response has no [level] key. *)
Theorem getBatteryInfo_helper_object_without_level
  (Number_toString : Q -> string) (JSON_parse : string -> Result JsVal)
  (env : Env) (elapsed : Z) (output : string)
  (props : list (string * JsVal)) :
  programs env "termux-battery-status" = Runs elapsed 0 output ->
  (elapsed <= 3000)%Z ->
  JSON_parse output = Ok (VObj props) ->
  Js.assoc "percentage" props = None ->
  Js.assoc "level" props = None ->
  let chg :=
    match Js.assoc "status" props with
    | Some st => Js.is_string st "CHARGING" || Js.is_string st "FULL"
    | None => false
    end in
  getBatteryInfo JSON_parse env
  = Ok {| level := VUndefined; charging := Some chg |} /\
  (forall f, getBatteryInfo JSON_parse (with_files f env)
             = Ok {| level := VUndefined; charging := Some chg |}) /\
  exists resp,
    GET Number_toString JSON_parse env = Ok resp /\
    body_keys_of "battery" resp = ["charging"] /\
    body_member "battery" resp = Some (JObj [("charging", JBool chg)]).
Proof.
  intros Hrun Htime Hparse Hpct Hlvl chg.
  assert (forall f,
             helper_reading JSON_parse (with_files f env)
             = Ok (VUndefined, chg) /\
             helper_reading JSON_parse env = Ok (VUndefined, chg)) as Hread.
  { intros f. unfold helper_reading, execSync. cbn [programs with_files].
    rewrite Hrun. apply Z.ltb_ge in Htime. rewrite Htime. cbn.
    rewrite Hparse. cbn. rewrite Hpct, Hlvl. cbn. subst chg.
    destruct (Js.assoc "status" props); split; reflexivity. }
  destruct (Hread (files env)) as (_ & Henv).
  assert (getBatteryInfo JSON_parse env
          = Ok {| level := VUndefined; charging := Some chg |}) as Hbat.
  { rewrite getBatteryInfo_cases, Henv. reflexivity. }
  split; [exact Hbat|]. split.
  - intros f. destruct (Hread f) as (Hf & _).
    rewrite getBatteryInfo_cases, Hf. reflexivity.
  - destruct (GET_assembles Number_toString JSON_parse env)
      as (n & m & t & b & _ & _ & _ & _ & Hb & Hget).
    rewrite Hbat in Hb. injection Hb as <-.
    eexists. split; [exact Hget|].
    cbv zeta. rewrite body_keys_of_battery. split; reflexivity.
Qed.

(** C10 on a phone whose capacity file reads 85 and whose helper
    prints an empty object. *)
Lemma getBatteryInfo_helper_object_without_level_witness :
  getBatteryInfo example_JSON_parse helper_prints_empty_object
  = Ok {| level := VUndefined; charging := Some false |} /\
  (forall f,
      getBatteryInfo example_JSON_parse
        (with_files f helper_prints_empty_object)
      = Ok {| level := VUndefined; charging := Some false |}) /\
  exists resp,
    GET example_Number_toString example_JSON_parse
      helper_prints_empty_object = Ok resp /\
    body_keys_of "battery" resp = ["charging"] /\
    body_member "battery" resp = Some (JObj [("charging", JBool false)]).
Proof.
  apply (getBatteryInfo_helper_object_without_level
           example_Number_toString example_JSON_parse
           helper_prints_empty_object 120 "{}" []);
    [reflexivity|lia|reflexivity|reflexivity|reflexivity].
Defined.

(** ** The snapshot as a whole *)

Lemma GET_status_and_keys (Number_toString : Q -> string)
  (JSON_parse : string -> Result JsVal) (env : Env) :
  exists resp,
    GET Number_toString JSON_parse env = Ok resp /\
    status resp = 200%Z /\ body_keys resp = snapshot_keys.
Proof.
  destruct (GET_assembles Number_toString JSON_parse env)
    as (n & m & t & b & _ & _ & _ & _ & _ & Hget).
  eexists. split; [exact Hget|]. split; reflexivity.
Qed.

(** C1.  What holds: on every host the handler answers with status 200
    and a document that has the six top-level keys.  What does not: the
    keys of the document depend on the probes.  With a helper that
    prints an object holding neither [percentage] nor [level] the
    battery object has no [level] key, which it has on a host without
    the helper. *)
Theorem GET_battery_keys_depend_on_helper :
  (forall Number_toString JSON_parse env,
      exists resp,
        GET Number_toString JSON_parse env = Ok resp /\
        status resp = 200%Z /\ body_keys resp = snapshot_keys) /\
  (exists without_helper with_helper,
      GET example_Number_toString example_JSON_parse server
      = Ok without_helper /\
      GET example_Number_toString example_JSON_parse
        helper_prints_empty_object = Ok with_helper /\
      body_keys_of "battery" without_helper = ["level"; "charging"] /\
      body_member "battery" without_helper
      = Some (JObj [("level", JNull); ("charging", JNull)]) /\
      body_keys_of "battery" with_helper = ["charging"] /\
      body_member "battery" with_helper
      = Some (JObj [("charging", JBool false)])).
Proof.
  split; [exact GET_status_and_keys|].
  eexists. eexists.
  split; [vm_compute; reflexivity|].
  split; [vm_compute; reflexivity|].
  repeat split.
Qed.


Lemma body_members_of_stats (Number_toString : Q -> string) (env : Env)
  (totalMem usedMem freeMem memPercent : number) (cpuModel : string)
  (cpuCount cpuPercent : number) (cpuTemp : option number) (uptime : number)
  (battery : BatteryInfo) (code : Z) (hdrs : list (string * string)) :
  let resp :=
    {| status := code; headers := hdrs;
       body := Some (stats_json Number_toString env totalMem usedMem freeMem
                       memPercent cpuModel cpuCount cpuPercent cpuTemp uptime
                       battery) |} in
  body_field "memory" "total" resp
  = Some (JStr (formatBytes Number_toString totalMem)) /\
  body_field "memory" "used" resp
  = Some (JStr (formatBytes Number_toString usedMem)) /\
  body_field "memory" "free" resp
  = Some (JStr (formatBytes Number_toString freeMem)) /\
  body_field "memory" "usagePercent" resp = Some (json_of_number memPercent) /\
  body_field "cpu" "model" resp = Some (JStr cpuModel) /\
  body_field "cpu" "cores" resp = Some (json_of_number cpuCount) /\
  body_field "cpu" "usagePercent" resp = Some (json_of_number cpuPercent) /\
  body_field "cpu" "temperature" resp = Some (json_of_temperature cpuTemp) /\
  body_member "battery" resp = Some (JObj (battery_members battery)).
Proof. repeat split. Qed.


(** ** Memory *)

Lemma Qred_inject_Z (z : Z) : Qred (inject_Z z) = inject_Z z.
Proof. apply Qcanon.Qred_identity. cbn. apply Z.gcd_1_r. Qed.

Lemma sub_of_Z (a b : Z) :
  Num.sub (Num.of_Z a) (Num.of_Z b) = Num.of_Z (a - b).
Proof.
  unfold Num.sub, Num.of_Z. f_equal.
  rewrite <- (Qred_inject_Z (a - b)). apply Qred_complete.
  unfold Z.sub. rewrite inject_Z_plus, inject_Z_opp. reflexivity.
Qed.

Lemma sign_of_pos (q : Q) : (0 < q)%Q -> Num.sign_of q = Gt.
Proof. intro H. unfold Num.sign_of. apply Qgt_alt. exact H. Qed.



(** C4 as stated fails: the three fields are strings. *)
Lemma memory_fields_are_strings :
  exists resp,
    GET example_Number_toString example_JSON_parse server = Ok resp /\
    body_field "memory" "total" resp = Some (JStr "8.00 GB") /\
    body_field "memory" "used" resp = Some (JStr "4.00 GB") /\
    body_field "memory" "free" resp = Some (JStr "4.00 GB") /\
    forall q, body_field "memory" "total" resp <> Some (JNum q).
Proof.
  eexists. split; [vm_compute; reflexivity|].
  repeat split. intros q H. discriminate H.
Qed.

(** C4, amended.  In every snapshot the [total], [used] and [free]
    fields of the memory object are the strings the byte formatter
    makes of the total, used and free byte counts, the used count being
    the total minus the free one. *)
Theorem GET_memory_fields_formatted (Number_toString : Q -> string)
  (JSON_parse : string -> Result JsVal) (env : Env) :
  exists resp,
    GET Number_toString JSON_parse env = Ok resp /\
    let total := Z.of_N (os_totalmem env) in
    let free := Z.of_N (os_freemem env) in
    body_field "memory" "total" resp
    = Some (JStr (formatBytes Number_toString (Num.of_Z total))) /\
    body_field "memory" "used" resp
    = Some (JStr (formatBytes Number_toString (Num.of_Z (total - free)))) /\
    body_field "memory" "free" resp
    = Some (JStr (formatBytes Number_toString (Num.of_Z free))).
Proof.
  destruct (GET_assembles Number_toString JSON_parse env)
    as (n & m & t & b & _ & _ & _ & _ & _ & Hget).
  eexists. split; [exact Hget|].
  cbv zeta. rewrite sub_of_Z. repeat split.
Qed.



(** ** CPU usage *)


Lemma round_Q_nonneg (q : Q) : (0 <= q)%Q -> (0 <= Math.round_Q q)%Z.
Proof.
  intro Hq. destruct (round_Q_bounds q) as [_ Hhi].
  destruct (Z_le_gt_dec 0 (Math.round_Q q)) as [H|H]; [exact H|].
  assert (Math.round_Q q <= -1)%Z as Hneg by lia.
  rewrite Zle_Qle in Hneg. change (inject_Z (-1)) with (-1)%Q in Hneg. lra.
Qed.


Lemma loadavg_1min_is (env : Env) : loadavg_1min env = Fin (load_1min env).
Proof.
  unfold loadavg_1min, load_1min.
  destruct (os_loadavg env) as [[one five] fifteen]. reflexivity.
Qed.

Lemma Plain_getBatteryInfo_returns (env : Env) :
  exists b, Plain.getBatteryInfo env = Ok b.
Proof.
  unfold Plain.getBatteryInfo, St.run, St.try_catch, St.bind, St.eval,
    St.assign, St.read, St.ret, readFileSync.
  destruct (files env "/sys/class/power_supply/battery/capacity");
    destruct (files env "/sys/class/power_supply/battery/status");
    cbn; eauto.
Qed.

Lemma Plain_GET_assembles (Number_toString : Q -> string) (env : Env) :
  exists (cpuModel : string) (cpuTemp : option number) (battery : BatteryInfo),
    Plain.GET Number_toString env =
    Ok {| status := 200;
          headers := response_headers;
          body :=
            let totalMem := Num.of_Z (Z.of_N (os_totalmem env)) in
            let freeMem := Num.of_Z (Z.of_N (os_freemem env)) in
            let usedMem := Num.sub totalMem freeMem in
            let cpuCount :=
              Num.of_Z (Z.of_nat (List.length (os_cpus env))) in
            Some (stats_json Number_toString env totalMem usedMem freeMem
                    (memUsagePercent usedMem totalMem) cpuModel cpuCount
                    (cpuUsagePercent (loadavg_1min env) cpuCount)
                    cpuTemp (Fin (os_uptime env)) battery) |}.
Proof.
  destruct (getCpuTemperature_returns env) as (cpuTemp & Htemp).
  destruct (Plain_getBatteryInfo_returns env) as (battery & Hbattery).
  eexists. exists cpuTemp, battery.
  unfold Plain.GET. rewrite Htemp, Hbattery.
  cbn [bind]. rewrite stringify_stats. reflexivity.
Qed.



(** ** The byte-size formatter *)

(** Enough fuel: the digits do not depend on it. *)
Lemma digits_enough (f1 f2 : nat) (n : Z) :
  (1 <= f1)%nat -> (1 <= f2)%nat ->
  0 <= n < 2 ^ Z.of_nat f1 -> n < 2 ^ Z.of_nat f2 ->
  Dec.digits f1 n = Dec.digits f2 n.
Proof.
  revert f2 n.
  induction f1 as [|f1 IH]; intros f2 n H1 H2 Hn1 Hn2; [lia|].
  destruct f2 as [|f2]; [lia|].
  cbn [Dec.digits].
  destruct (Z.ltb_spec n 10) as [Hlt|Hge]; [reflexivity|].
  f_equal.
  assert (2 ^ Z.of_nat (S f1) = 2 * 2 ^ Z.of_nat f1) as E1
    by (rewrite Nat2Z.inj_succ, Z.pow_succ_r; lia).
  assert (2 ^ Z.of_nat (S f2) = 2 * 2 ^ Z.of_nat f2) as E2
    by (rewrite Nat2Z.inj_succ, Z.pow_succ_r; lia).
  assert (n / 10 < 2 ^ Z.of_nat f1) by (apply Z.div_lt_upper_bound; lia).
  assert (n / 10 < 2 ^ Z.of_nat f2) by (apply Z.div_lt_upper_bound; lia).
  assert (0 <= n / 10) by (apply Z.div_pos; lia).
  assert (1 <= n / 10) by (apply Z.div_le_lower_bound; lia).
  apply IH; try lia.
  - destruct f1; [cbn in *; lia|lia].
  - destruct f2; [cbn in *; lia|lia].
Qed.

Lemma of_nonneg_step (n : Z) :
  0 <= n ->
  Dec.of_nonneg n =
  if (n <? 10)%Z then String (Dec.digit_char (n mod 10)) EmptyString
  else Dec.of_nonneg (n / 10) ++ String (Dec.digit_char (n mod 10)) EmptyString.
Proof.
  intro Hn. unfold Dec.of_nonneg at 1. cbn [Dec.digits].
  destruct (Z.ltb_spec n 10) as [Hlt|Hge]; [reflexivity|].
  f_equal. unfold Dec.of_nonneg.
  assert (0 < n) as Hpos by lia.
  pose proof (Z.log2_spec n Hpos) as [Hlo Hhi].
  assert (3 <= Z.log2 n) by (apply Z.log2_le_pow2; lia).
  assert (1 <= n / 10) by (apply Z.div_le_lower_bound; lia).
  assert (0 < n / 10) as Hpos' by lia.
  pose proof (Z.log2_spec (n / 10) Hpos') as [Hlo' Hhi'].
  pose proof (Z.log2_nonneg (n / 10)).
  apply digits_enough; try lia.
  - rewrite Z2Nat.id by lia. split; [lia|].
    apply Z.div_lt_upper_bound; [lia|].
    replace (Z.succ (Z.log2 n)) with (Z.log2 n + 1) in Hhi by lia.
    rewrite Z.pow_add_r in Hhi by lia. lia.
  - rewrite Nat2Z.inj_succ, Z2Nat.id by lia. exact Hhi'.
Qed.

Lemma length_app (a b : string) :
  String.length (a ++ b) = (String.length a + String.length b)%nat.
Proof. induction a as [|c a IH]; cbn; [reflexivity|]. rewrite IH. reflexivity. Qed.

Lemma substring_app_left (a b : string) :
  substring 0 (String.length a) (a ++ b) = a.
Proof.
  induction a as [|c a IH]; cbn.
  - destruct b; reflexivity.
  - rewrite IH. reflexivity.
Qed.

Lemma substring_all (b : string) : substring 0 (String.length b) b = b.
Proof. induction b as [|c b IH]; cbn; [reflexivity|]. rewrite IH. reflexivity. Qed.

Lemma substring_app_right (a b : string) :
  substring (String.length a) (String.length b) (a ++ b) = b.
Proof.
  induction a as [|c a IH]; cbn; [apply substring_all|exact IH].
Qed.

Lemma app_assoc_string (a b c : string) : (a ++ b) ++ c = a ++ (b ++ c).
Proof. induction a as [|x a IH]; cbn; [reflexivity|]. rewrite IH. reflexivity. Qed.

Lemma of_nonneg_length (n : Z) : 0 <= n -> (1 <= String.length (Dec.of_nonneg n))%nat.
Proof.
  intro Hn. rewrite of_nonneg_step by exact Hn.
  destruct (n <? 10)%Z; [cbn; lia|].
  rewrite length_app. cbn. lia.
Qed.

Lemma of_nonneg_hundreds (n : Z) :
  100 <= n ->
  Dec.of_nonneg n =
  Dec.of_nonneg (n / 100)
  ++ String (Dec.digit_char ((n / 10) mod 10))
       (String (Dec.digit_char (n mod 10)) EmptyString).
Proof.
  intro Hn.
  rewrite (of_nonneg_step n) by lia.
  destruct (Z.ltb_spec n 10) as [H|_]; [lia|].
  assert (10 <= n / 10) by (apply Z.div_le_lower_bound; lia).
  rewrite (of_nonneg_step (n / 10)) by lia.
  destruct (Z.ltb_spec (n / 10) 10) as [H'|_]; [lia|].
  rewrite Z.div_div by lia. change (10 * 10) with 100.
  rewrite app_assoc_string. reflexivity.
Qed.

Section Formatting.

Variable Number_toString : Q -> string.

Lemma below_ten_pow_21 (x : Q) :
  (x < inject_Z (10 ^ 21))%Q -> Qle_bool ten_pow_21 x = false.
Proof.
  intro H. destruct (Qle_bool ten_pow_21 x) eqn:E; [|reflexivity].
  apply Qle_bool_iff in E. unfold ten_pow_21 in E. lra.
Qed.

Lemma nonneg_Qle_bool (q : Q) : (0 <= q)%Q -> Qle_bool 0 q = true.
Proof. intro H. apply Qle_bool_iff. exact H. Qed.

Lemma round_Q_ge (q : Q) (k : Z) : (inject_Z k <= q)%Q -> (k <= Math.round_Q q)%Z.
Proof.
  intro H. destruct (round_Q_bounds q) as [_ Hhi].
  destruct (Z_le_gt_dec k (Math.round_Q q)) as [L|G]; [exact L|].
  assert (Math.round_Q q + 1 <= k)%Z as Hk by lia.
  rewrite Zle_Qle, inject_Z_plus in Hk. change (inject_Z 1) with 1%Q in Hk. lra.
Qed.

Lemma toFixed_2_ge_1 (q : Q) :
  (1 <= q)%Q -> (q < inject_Z (10 ^ 21))%Q ->
  let n := Math.round_Q (q * 100) in
  toFixed Number_toString 2 (Fin q) =
  Dec.of_nonneg (n / 100) ++ "."
  ++ String (Dec.digit_char ((n / 10) mod 10))
       (String (Dec.digit_char (n mod 10)) EmptyString).
Proof.
  intros H1 Hbig n. unfold toFixed.
  assert (Qabs q == q)%Q as Habs by (apply Qabs_pos; lra).
  rewrite nonneg_Qle_bool by lra.
  rewrite below_ten_pow_21 by (rewrite Habs; exact Hbig).
  change (inject_Z (10 ^ Z.of_nat 2)) with 100%Q.
  rewrite (round_Q_comp (Qabs q * 100) (q * 100)) by (rewrite Habs; reflexivity).
  fold n.
  assert (100 <= n)%Z as Hn.
  { apply round_Q_ge. change (inject_Z 100) with 100%Q. lra. }
  rewrite (of_nonneg_hundreds n Hn).
  set (a := Dec.of_nonneg (n / 100)).
  set (b := String (Dec.digit_char ((n / 10) mod 10))
              (String (Dec.digit_char (n mod 10)) EmptyString)).
  assert (1 <= String.length a)%nat as Ha.
  { apply of_nonneg_length. apply Z.div_pos; lia. }
  cbn [Nat.eqb].
  rewrite length_app. change (String.length b) with 2%nat.
  replace (Nat.leb (String.length a + 2) 2) with false
    by (symmetry; apply Nat.leb_gt; lia).
  rewrite length_app. change (String.length b) with 2%nat.
  replace (String.length a + 2 - 2)%nat with (String.length a) by lia.
  rewrite substring_app_left.
  change 2%nat with (String.length b) at 1.
  rewrite substring_app_right. reflexivity.
Qed.

Lemma toFixed_0_small (q : Q) :
  (Qabs q < inject_Z (10 ^ 21))%Q ->
  toFixed Number_toString 0 (Fin q) =
  (if Qle_bool 0 q then "" else "-") ++ Dec.of_nonneg (Math.round_Q (Qabs q)).
Proof.
  intro Hsmall. unfold toFixed.
  rewrite below_ten_pow_21 by exact Hsmall.
  change (inject_Z (10 ^ Z.of_nat 0)) with 1%Q.
  rewrite (round_Q_comp (Qabs q * 1) (Qabs q)) by ring.
  reflexivity.
Qed.

Lemma ge_Fin (x y : Q) : Num.ge (Fin x) (Fin y) = true <-> (y <= x)%Q.
Proof.
  unfold Num.ge. rewrite Qge_alt.
  destruct (x ?= y)%Q; split; congruence.
Qed.

Lemma div_by_positive (x : Q) (d : Z) :
  (0 < d)%Z -> Num.div (Fin x) (Num.of_Z d) = Fin (Qred (x / inject_Z d)).
Proof.
  intro Hd. unfold Num.div, Num.of_Z.
  rewrite (sign_of_pos _ (inject_Z_pos d Hd)). reflexivity.
Qed.

(** C9.  The byte formatter writes a count of at least [2 ^ 30] bytes
    in gibibytes, rounded to the closest hundredth and written with
    exactly two decimals before [" GB"], and a smaller count in
    mebibytes, rounded to the closest whole number, before [" MB"]:
    [2 ^ 30] gives ["1.00 GB"], [2 ^ 20] gives ["1 MB"], and
    [2 ^ 30 - 1] is written in MB.  The counts are those [toFixed]
    writes in digits, below [10 ^ 21] gibibytes or mebibytes. *)
Theorem formatBytes_GB_from_one_gibibyte :
  (forall bytes : Q,
      (inject_Z (2 ^ 30) <= bytes)%Q ->
      (bytes < inject_Z (2 ^ 30 * 10 ^ 21))%Q ->
      exists n : Z,
        nearest_integer n (bytes / inject_Z (2 ^ 30) * 100) /\
        formatBytes Number_toString (Fin bytes) =
        Dec.of_nonneg (n / 100) ++ "."
        ++ String (Dec.digit_char ((n / 10) mod 10))
             (String (Dec.digit_char (n mod 10)) " GB")) /\
  (forall bytes : Q,
      (inject_Z (- (2 ^ 20 * 10 ^ 21)) < bytes)%Q ->
      (bytes < inject_Z (2 ^ 30))%Q ->
      exists n : Z,
        nearest_integer n (Qabs bytes / inject_Z (2 ^ 20)) /\
        formatBytes Number_toString (Fin bytes) =
        (if Qle_bool 0 bytes then "" else "-") ++ Dec.of_nonneg n ++ " MB") /\
  formatBytes Number_toString (Num.of_Z (2 ^ 30)) = "1.00 GB" /\
  formatBytes Number_toString (Num.of_Z (2 ^ 20)) = "1 MB" /\
  formatBytes Number_toString (Num.of_Z (2 ^ 30 - 1)) = "1024 MB".
Proof.
  split; [|split; [|repeat split]].
  - intros bytes Hge Hlt.
    exists (Math.round_Q (bytes / inject_Z (2 ^ 30) * 100)).
    split; [apply round_Q_bounds|].
    unfold formatBytes.
    change (1024 * 1024 * 1024)%Z with (2 ^ 30)%Z.
    rewrite div_by_positive by reflexivity.
    set (gb := Qred (bytes / inject_Z (2 ^ 30))).
    assert (gb == bytes / inject_Z (2 ^ 30))%Q as Hgb by apply Qred_correct.
    assert (1 <= bytes / inject_Z (2 ^ 30))%Q as H1.
    { apply Qle_shift_div_l; [reflexivity|]. lra. }
    assert (bytes / inject_Z (2 ^ 30) < inject_Z (10 ^ 21))%Q as H21.
    { apply Qlt_shift_div_r; [reflexivity|].
      rewrite <- inject_Z_mult. rewrite Z.mul_comm. exact Hlt. }
    replace (Num.ge (Fin gb) (Num.of_Z 1)) with true
      by (symmetry; apply ge_Fin; rewrite Hgb; exact H1).
    rewrite toFixed_2_ge_1 by (rewrite Hgb; assumption).
    cbv zeta.
    rewrite (round_Q_comp (gb * 100) (bytes / inject_Z (2 ^ 30) * 100))
      by (rewrite Hgb; reflexivity).
    rewrite !app_assoc_string. reflexivity.
  - intros bytes Hlo Hhi.
    exists (Math.round_Q (Qabs bytes / inject_Z (2 ^ 20))).
    split; [apply round_Q_bounds|].
    unfold formatBytes.
    change (1024 * 1024 * 1024)%Z with (2 ^ 30)%Z.
    change (1024 * 1024)%Z with (2 ^ 20)%Z.
    rewrite !div_by_positive by reflexivity.
    set (gb := Qred (bytes / inject_Z (2 ^ 30))).
    assert (gb == bytes / inject_Z (2 ^ 30))%Q as Hgb by apply Qred_correct.
    assert (bytes / inject_Z (2 ^ 30) < 1)%Q as H1.
    { apply Qlt_shift_div_r; [reflexivity|]. lra. }
    replace (Num.ge (Fin gb) (Num.of_Z 1)) with false.
    2: { symmetry. destruct (Num.ge (Fin gb) (Num.of_Z 1)) eqn:E;
           [|reflexivity].
         apply ge_Fin in E. rewrite Hgb in E.
         change (inject_Z 1) with 1%Q in E. lra. }
    set (mb := Qred (bytes / inject_Z (2 ^ 20))).
    assert (mb == bytes / inject_Z (2 ^ 20))%Q as Hmb by apply Qred_correct.
    assert (Qabs mb == Qabs bytes / inject_Z (2 ^ 20))%Q as Habs.
    { rewrite Hmb. unfold Qdiv. rewrite Qabs_Qmult.
      rewrite (Qabs_pos (/ inject_Z (2 ^ 20))); [reflexivity|].
      apply Qinv_le_0_compat. discriminate. }
    rewrite toFixed_0_small.
    + rewrite (round_Q_comp _ _ Habs).
      replace (Qle_bool 0 mb) with (Qle_bool 0 bytes).
      * rewrite app_assoc_string. reflexivity.
      * apply eq_true_iff_eq. rewrite !Qle_bool_iff, Hmb.
        split; intro H.
        -- apply Qle_shift_div_l; [reflexivity|]. lra.
        -- apply Qmult_le_r with (z := / inject_Z (2 ^ 20));
             [reflexivity|]. unfold Qdiv in H. lra.
    + rewrite Habs. apply Qlt_shift_div_r; [reflexivity|].
      rewrite <- inject_Z_mult.
      apply Qabs_Qlt_condition. split.
      * rewrite <- inject_Z_opp. rewrite Z.mul_comm. exact Hlo.
      * eapply Qlt_trans; [exact Hhi|]. reflexivity.
Qed.

End Formatting.

(** C9 on 1.5 GiB and on 1.5 MiB. *)
Lemma formatBytes_GB_from_one_gibibyte_witness :
  (exists n : Z,
      nearest_integer n (inject_Z 1610612736 / inject_Z (2 ^ 30) * 100) /\
      formatBytes example_Number_toString (Fin (inject_Z 1610612736)) =
      Dec.of_nonneg (n / 100) ++ "."
      ++ String (Dec.digit_char ((n / 10) mod 10))
           (String (Dec.digit_char (n mod 10)) " GB")) /\
  (exists n : Z,
      nearest_integer n (Qabs (inject_Z 1572864) / inject_Z (2 ^ 20)) /\
      formatBytes example_Number_toString (Fin (inject_Z 1572864)) =
      (if Qle_bool 0 (inject_Z 1572864) then "" else "-")
      ++ Dec.of_nonneg n ++ " MB").
Proof.
  split.
  - apply (proj1 (formatBytes_GB_from_one_gibibyte example_Number_toString));
      [discriminate|reflexivity].
  - apply (proj1 (proj2 (formatBytes_GB_from_one_gibibyte
                           example_Number_toString)));
      reflexivity.
Defined.

(** ** The model on concrete inputs *)

Example formatUptime_examples :
  formatUptime example_Number_toString (Num.of_Z 0) = "< 1m" /\
  formatUptime example_Number_toString (Num.of_Z 125) = "2m" /\
  formatUptime example_Number_toString (Num.of_Z 3725) = "1h 2m" /\
  formatUptime example_Number_toString (Num.of_Z 90000) = "1d 1h".
Proof. repeat split. Qed.

Example parseInt_examples :
  ParseInt.parseInt "85" = Num.of_Z 85 /\
  ParseInt.parseInt "  -12px" = Num.of_Z (-12) /\
  ParseInt.parseInt "0x1F" = Num.of_Z 31 /\
  ParseInt.parseInt "" = NaN /\
  ParseInt.parseInt "n/a" = NaN.
Proof. repeat split. Qed.

Example cpuinfo_examples :
  let env := with_files (only_files [("/proc/cpuinfo", cpuinfo_two_cores)])
               server in
  getCpuCoreCount env = Ok 2%Z /\
  getCpuModel env = Ok "GS201" /\
  getCpuCoreCount server = Ok 4%Z /\
  getCpuModel server = Ok "Xeon".
Proof. repeat split. Qed.

(** A level read from a pseudo-file is kept when no status can be
    read. *)
Example battery_partial_reading :
  getBatteryInfo example_JSON_parse
    (with_files
       (only_files
          [("/sys/class/power_supply/BAT0/capacity", "85" ++ newline)])
       server)
  = Ok {| level := VNum (Num.of_Z 85); charging := None |} /\
  getBatteryInfo example_JSON_parse phone_sysfs
  = Ok {| level := VNum (Num.of_Z 85); charging := Some true |}.
Proof. split; reflexivity. Qed.

(** * Further properties of the endpoint *)

(** ** The uptime formatter *)

Lemma Qfloor_unique (q : Q) (z : Z) :
  (inject_Z z <= q)%Q -> (q < inject_Z (z + 1))%Q -> Qfloor q = z.
Proof.
  intros Hlo Hhi.
  pose proof (Qfloor_le q) as Fl. pose proof (Qlt_floor q) as Fh.
  assert (inject_Z z < inject_Z (Qfloor q + 1))%Q as A by lra.
  assert (inject_Z (Qfloor q) < inject_Z (z + 1))%Q as B by lra.
  rewrite <- Zlt_Qlt in A, B. lia.
Qed.

Lemma Qfloor_sub_Z (q : Q) (k : Z) : Qfloor (q - inject_Z k) = (Qfloor q - k)%Z.
Proof.
  pose proof (Qfloor_le q) as Fl. pose proof (Qlt_floor q) as Fh.
  apply Qfloor_unique.
  - unfold Z.sub. rewrite inject_Z_plus, inject_Z_opp. lra.
  - replace (Qfloor q - k + 1)%Z with ((Qfloor q + 1) + - k)%Z by lia.
    rewrite inject_Z_plus, inject_Z_opp. lra.
Qed.

Lemma Qfloor_div_Z (q : Q) (n : Z) :
  (0 < n)%Z -> Qfloor (q / inject_Z n) = (Qfloor q / n)%Z.
Proof.
  intro Hn.
  pose proof (inject_Z_pos n Hn) as HN.
  pose proof (Qfloor_le q) as Fl. pose proof (Qlt_floor q) as Fh.
  rewrite inject_Z_plus in Fh. change (inject_Z 1) with 1%Q in Fh.
  set (t := Qfloor q) in *.
  pose proof (Z.div_mod t n ltac:(lia)) as Hdm.
  pose proof (Z.mod_pos_bound t n Hn) as Hmod.
  assert (inject_Z t == inject_Z n * inject_Z (t / n) + inject_Z (t mod n))%Q as Ht.
  { rewrite <- inject_Z_mult, <- inject_Z_plus, <- Hdm. reflexivity. }
  assert (0 <= inject_Z (t mod n))%Q as M0.
  { change 0%Q with (inject_Z 0). rewrite <- Zle_Qle. lia. }
  assert (inject_Z (t mod n) + 1 <= inject_Z n)%Q as M1.
  { change 1%Q with (inject_Z 1). rewrite <- inject_Z_plus, <- Zle_Qle. lia. }
  apply Qfloor_unique.
  - apply Qle_shift_div_l; [exact HN|]. nra.
  - apply Qlt_shift_div_r; [exact HN|].
    rewrite inject_Z_plus. change (inject_Z 1) with 1%Q. nra.
Qed.

Lemma Qtrunc_nonneg (q : Q) : (0 <= q)%Q -> Num.Qtrunc q = Qfloor q.
Proof.
  intro H. destruct q as [a b]. unfold Num.Qtrunc. cbn [Qnum Qden Qfloor].
  apply Z.quot_div_nonneg; [|lia].
  unfold Qle in H. cbn in H. lia.
Qed.

Lemma floor_div_of_Z (s : Q) (n : Z) :
  (0 < n)%Z ->
  Math.floor (Num.div (Fin s) (Num.of_Z n)) = Num.of_Z (Qfloor s / n).
Proof.
  intro Hn. rewrite div_by_positive by exact Hn.
  unfold Math.floor. f_equal.
  rewrite (Qfloor_comp _ _ (Qred_correct _)). apply Qfloor_div_Z. exact Hn.
Qed.

Lemma rem_nonneg_of_Z (s : Q) (n : Z) :
  (0 <= s)%Q -> (0 < n)%Z ->
  exists r : Q,
    Num.rem (Fin s) (Num.of_Z n) = Fin r /\
    Qfloor r = (Qfloor s mod n)%Z.
Proof.
  intros Hs Hn. pose proof (inject_Z_pos n Hn) as HN.
  unfold Num.rem, Num.of_Z. rewrite (sign_of_pos _ HN).
  eexists. split; [reflexivity|].
  rewrite (Qfloor_comp _ _ (Qred_correct _)).
  rewrite Qtrunc_nonneg.
  2: { apply Qle_shift_div_l; [exact HN|]. lra. }
  rewrite Qfloor_div_Z by exact Hn.
  rewrite <- inject_Z_mult, Qfloor_sub_Z.
  rewrite Z.mod_eq by lia. reflexivity.
Qed.

Lemma gt_of_Z (a b : Z) : Num.gt (Num.of_Z a) (Num.of_Z b) = (b <? a)%Z.
Proof.
  unfold Num.gt, Num.of_Z. rewrite Qcompare_inject_Z.
  rewrite Z.ltb_antisym, Z.leb_compare.
  destruct (a ?= b)%Z; reflexivity.
Qed.

Section Uptime.

Variable Number_toString : Q -> string.

Lemma ToString_of_Z (z : Z) :
  (0 <= z < 10 ^ 21)%Z ->
  ToString Number_toString (Num.of_Z z) = Dec.of_nonneg z.
Proof.
  intros [H0 H1]. unfold ToString, Num.of_Z, is_integer.
  rewrite Qfloor_Z, Qeq_bool_refl.
  rewrite below_ten_pow_21.
  - cbn [andb negb]. unfold Dec.of_Z.
    destruct (Z.ltb_spec z 0); [lia|reflexivity].
  - rewrite Qabs_pos.
    + rewrite <- Zlt_Qlt. exact H1.
    + change 0%Q with (inject_Z 0). rewrite <- Zle_Qle. exact H0.
Qed.

Lemma of_nonneg_head (v : Z) :
  (0 <= v)%Z -> exists c r, Dec.of_nonneg v = String c r.
Proof.
  intro H. pose proof (of_nonneg_length v H) as L.
  destruct (Dec.of_nonneg v) as [|c r]; [cbn in L; lia|eauto].
Qed.

Lemma formatUptime_units (s : Q) :
  (0 <= s)%Q -> (s < inject_Z (86400 * 10 ^ 21))%Q ->
  let t := Qfloor s in
  formatUptime Number_toString (Fin s)
  = uptime_text (t / 86400) ((t mod 86400) / 3600) ((t mod 3600) / 60).
Proof.
  intros Hs Hbig t. unfold formatUptime.
  rewrite floor_div_of_Z by lia. fold t.
  destruct (rem_nonneg_of_Z s 86400 Hs ltac:(lia)) as (r1 & Hr1 & Hf1).
  destruct (rem_nonneg_of_Z s 3600 Hs ltac:(lia)) as (r2 & Hr2 & Hf2).
  rewrite Hr1, Hr2, !floor_div_of_Z by lia. rewrite Hf1, Hf2. fold t.
  rewrite !gt_of_Z.
  assert (0 <= t)%Z as Ht.
  { unfold t. rewrite <- (Qfloor_Z 0). apply Qfloor_resp_le. exact Hs. }
  assert (t < 86400 * 10 ^ 21)%Z as Ht'.
  { pose proof (Qfloor_le s) as Fl. fold t in Fl.
    rewrite Zlt_Qlt. lra. }
  assert (0 <= t / 86400 < 10 ^ 21)%Z as Hd.
  { split; [apply Z.div_pos; lia|apply Z.div_lt_upper_bound; lia]. }
  pose proof (Z.mod_pos_bound t 86400 ltac:(lia)) as M1.
  pose proof (Z.mod_pos_bound t 3600 ltac:(lia)) as M2.
  assert (0 <= t mod 86400 / 3600 < 10 ^ 21)%Z as Hh.
  { split; [apply Z.div_pos; lia|].
    apply Z.div_lt_upper_bound; [lia|]. lia. }
  assert (0 <= t mod 3600 / 60 < 10 ^ 21)%Z as Hm.
  { split; [apply Z.div_pos; lia|].
    apply Z.div_lt_upper_bound; [lia|]. lia. }
  rewrite !ToString_of_Z by assumption.
  unfold uptime_text, unit_text.
  destruct (of_nonneg_head (t / 86400) (proj1 Hd)) as (c1 & s1 & E1).
  destruct (of_nonneg_head (t mod 86400 / 3600) (proj1 Hh)) as (c2 & s2 & E2).
  destruct (of_nonneg_head (t mod 3600 / 60) (proj1 Hm)) as (c3 & s3 & E3).
  rewrite E1, E2, E3.
  destruct (0 <? t / 86400)%Z, (0 <? t mod 86400 / 3600)%Z,
    (0 <? t mod 3600 / 60)%Z; reflexivity.
Qed.

Lemma of_nonneg_digit_head (v : Z) :
  (0 <= v)%Z ->
  exists d r, (0 <= d <= 9)%Z /\ Dec.of_nonneg v = String (Dec.digit_char d) r.
Proof.
  induction v as [v IH] using (well_founded_induction (Z.lt_wf 0)).
  intro Hv.
  rewrite of_nonneg_step by exact Hv.
  destruct (Z.ltb_spec v 10) as [Hlt|Hge].
  - exists (v mod 10)%Z, EmptyString. split; [|reflexivity].
    pose proof (Z.mod_pos_bound v 10 ltac:(lia)). lia.
  - assert (0 <= v / 10 < v)%Z as Hq.
    { split; [apply Z.div_pos; lia|apply Z.div_lt; lia]. }
    destruct (IH (v / 10)%Z ltac:(lia) (proj1 Hq)) as (d & r & Hd & E).
    rewrite E. exists d. eexists. split; [exact Hd|reflexivity].
Qed.

Lemma digit_char_not_lt (d : Z) :
  (0 <= d <= 9)%Z -> Dec.digit_char d <> "<"%char.
Proof.
  intros H.
  assert (d = 0 \/ d = 1 \/ d = 2 \/ d = 3 \/ d = 4 \/ d = 5 \/ d = 6 \/
          d = 7 \/ d = 8 \/ d = 9)%Z as C by lia.
  repeat (destruct C as [->|C]; [discriminate|]). subst. discriminate.
Qed.

Lemma uptime_text_placeholder (d h m : Z) :
  (0 <= d)%Z -> (0 <= h)%Z -> (0 <= m)%Z ->
  (uptime_text d h m = "< 1m" <-> d = 0 /\ h = 0 /\ m = 0)%Z.
Proof.
  intros Hd Hh Hm. unfold uptime_text, unit_text.
  destruct (of_nonneg_digit_head d Hd) as (d1 & r1 & B1 & E1).
  destruct (of_nonneg_digit_head h Hh) as (d2 & r2 & B2 & E2).
  destruct (of_nonneg_digit_head m Hm) as (d3 & r3 & B3 & E3).
  rewrite E1, E2, E3.
  pose proof (digit_char_not_lt d1 B1). pose proof (digit_char_not_lt d2 B2).
  pose proof (digit_char_not_lt d3 B3).
  destruct (Z.ltb_spec 0 d), (Z.ltb_spec 0 h), (Z.ltb_spec 0 m);
    cbn; split; intro X; try (destruct X as (? & ? & ?); lia);
    try (injection X; intros; congruence); try reflexivity; try lia.
Qed.

Lemma Qtrunc_nonpos (q : Q) : (q <= 0)%Q -> (q <= inject_Z (Num.Qtrunc q))%Q.
Proof.
  intro H. destruct q as [a b]. unfold Num.Qtrunc. cbn [Qnum Qden].
  unfold Qle in *. cbn in *.
  assert (a <= 0)%Z as Ha by lia.
  pose proof (Z.mul_quot_ge a (Zpos b) ltac:(lia) ltac:(lia)) as Hq.
  lia.
Qed.

Lemma rem_nonpos_of_Z (s : Q) (n : Z) :
  (s <= 0)%Q -> (0 < n)%Z ->
  exists r : Q, Num.rem (Fin s) (Num.of_Z n) = Fin r /\ (r <= 0)%Q.
Proof.
  intros Hs Hn. pose proof (inject_Z_pos n Hn) as HN.
  unfold Num.rem, Num.of_Z. rewrite (sign_of_pos _ HN).
  eexists. split; [reflexivity|].
  rewrite Qred_correct.
  assert (s / inject_Z n <= 0)%Q as Hq.
  { apply Qle_shift_div_r; [exact HN|]. lra. }
  pose proof (Qtrunc_nonpos _ Hq) as Ht.
  assert (s / inject_Z n * inject_Z n == s)%Q as E by (field; lra).
  set (T := inject_Z (Num.Qtrunc (s / inject_Z n))) in *.
  set (q := (s / inject_Z n)%Q) in *. nra.
Qed.

Lemma floor_div_nonpos (r : Q) (k : Z) :
  (r <= 0)%Q -> (0 < k)%Z ->
  Num.gt (Math.floor (Num.div (Fin r) (Num.of_Z k))) (Num.of_Z 0) = false.
Proof.
  intros Hr Hk. rewrite floor_div_of_Z by exact Hk. rewrite gt_of_Z.
  apply Z.ltb_ge.
  assert (Qfloor r <= 0)%Z as F.
  { rewrite <- (Qfloor_Z 0). apply Qfloor_resp_le. exact Hr. }
  apply Z.div_le_upper_bound; lia.
Qed.

(** X1.  For an uptime that is not negative, [formatUptime] writes the
    whole days, the whole hours of the rest (0..23) and the whole
    minutes of the rest (0..59) of the whole number of seconds: the
    units that are positive, each before its letter, in that order with
    a blank between, and ["< 1m"] when none is.  Seconds and fractions
    of a second never show. *)
Theorem formatUptime_whole_units (s : Q) :
  (0 <= s)%Q -> (s < inject_Z (86400 * 10 ^ 21))%Q ->
  let t := Qfloor s in
  (0 <= t / 86400)%Z /\
  (0 <= (t mod 86400) / 3600 < 24)%Z /\
  (0 <= (t mod 3600) / 60 < 60)%Z /\
  formatUptime Number_toString (Fin s)
  = uptime_text (t / 86400) ((t mod 86400) / 3600) ((t mod 3600) / 60).
Proof.
  intros Hs Hbig t.
  assert (0 <= t)%Z as Ht.
  { unfold t. rewrite <- (Qfloor_Z 0). apply Qfloor_resp_le. exact Hs. }
  pose proof (Z.mod_pos_bound t 86400 ltac:(lia)) as M1.
  pose proof (Z.mod_pos_bound t 3600 ltac:(lia)) as M2.
  split; [apply Z.div_pos; lia|].
  split; [split; [apply Z.div_pos; lia|apply Z.div_lt_upper_bound; lia]|].
  split; [split; [apply Z.div_pos; lia|apply Z.div_lt_upper_bound; lia]|].
  apply formatUptime_units; assumption.
Qed.

(** X2.  [formatUptime] gives the placeholder ["< 1m"] for every
    number below 60, the negative ones included, and for [NaN]; from 60
    seconds on it never does. *)
Theorem formatUptime_placeholder_below_one_minute :
  (forall s : Q, (s < 60)%Q ->
                 formatUptime Number_toString (Fin s) = "< 1m") /\
  formatUptime Number_toString NaN = "< 1m" /\
  (forall s : Q, (60 <= s)%Q -> (s < inject_Z (86400 * 10 ^ 21))%Q ->
                 formatUptime Number_toString (Fin s) <> "< 1m").
Proof.
  split; [|split].
  - intros s Hs. destruct (Qlt_le_dec s 0) as [Hneg|Hpos].
    + unfold formatUptime.
      destruct (rem_nonpos_of_Z s 86400 ltac:(lra) ltac:(lia)) as (r1 & E1 & L1).
      destruct (rem_nonpos_of_Z s 3600 ltac:(lra) ltac:(lia)) as (r2 & E2 & L2).
      rewrite E1, E2.
      rewrite !floor_div_nonpos by (try lra; lia). reflexivity.
    + rewrite formatUptime_units.
      * apply uptime_text_placeholder.
        all: assert (0 <= Qfloor s < 60)%Z as Ht.
        all: try (split;
                  [rewrite <- (Qfloor_Z 0); apply Qfloor_resp_le; exact Hpos|
                   pose proof (Qfloor_le s) as Fl; rewrite Zlt_Qlt;
                   change (inject_Z 60) with 60%Q; lra]).
        all: try (rewrite ?Z.mod_small by lia;
                  rewrite ?Z.div_small by lia; lia).
      * exact Hpos.
      * eapply Qlt_trans; [exact Hs|reflexivity].
  - reflexivity.
  - intros s Hs Hbig. rewrite formatUptime_units by (try lra; assumption).
    cbv zeta. set (t := Qfloor s).
    assert (60 <= t)%Z as Ht.
    { unfold t. rewrite <- (Qfloor_Z 60). apply Qfloor_resp_le. exact Hs. }
    pose proof (Z.mod_pos_bound t 86400 ltac:(lia)) as M1.
    pose proof (Z.mod_pos_bound t 3600 ltac:(lia)) as M2.
    intro E. apply uptime_text_placeholder in E.
    + destruct E as (Ed & Eh & Em).
      assert (t < 86400)%Z.
      { destruct (Z_lt_ge_dec t 86400); [assumption|].
        assert (1 <= t / 86400)%Z by (apply Z.div_le_lower_bound; lia). lia. }
      rewrite Z.mod_small in Eh by lia.
      assert (t < 3600)%Z.
      { destruct (Z_lt_ge_dec t 3600); [assumption|].
        assert (1 <= t / 3600)%Z by (apply Z.div_le_lower_bound; lia). lia. }
      rewrite Z.mod_small in Em by lia.
      assert (1 <= t / 60)%Z by (apply Z.div_le_lower_bound; lia). lia.
    + apply Z.div_pos; lia.
    + apply Z.div_pos; lia.
    + apply Z.div_pos; lia.
Qed.
End Uptime.

(** ** The probes and the two handlers *)

Lemma body_fields_of_stats_more (Number_toString : Q -> string) (env : Env)
  (totalMem usedMem freeMem memPercent : number) (cpuModel : string)
  (cpuCount cpuPercent : number) (cpuTemp : option number) (uptime : number)
  (battery : BatteryInfo) (code : Z) (hdrs : list (string * string)) :
  let resp :=
    {| status := code; headers := hdrs;
       body := Some (stats_json Number_toString env totalMem usedMem freeMem
                       memPercent cpuModel cpuCount cpuPercent cpuTemp uptime
                       battery) |} in
  body_field "system" "uptime" resp
  = Some (JStr (formatUptime Number_toString uptime)) /\
  body_field "system" "uptimeSeconds" resp
  = Some (json_of_number (Math.floor uptime)) /\
  body_field "cpu" "loadAvg" resp
  = Some (JArr (map (fun l => JStr (toFixed Number_toString 2 l))
                  (loadavg env))) /\
  body_member "device" resp
  = Some (JObj [ ("name", JStr "Pixel 7");
                 ("platform", JStr (os_platform env));
                 ("arch", JStr (os_arch env));
                 ("hostname", JStr (os_hostname env)) ]) /\
  body_member "timestamp" resp = Some (JStr (date_now env)) /\
  body_keys resp = snapshot_keys /\
  body_keys_of "device" resp = ["name"; "platform"; "arch"; "hostname"] /\
  body_keys_of "memory" resp = ["total"; "used"; "free"; "usagePercent"] /\
  body_keys_of "cpu" resp
  = ["model"; "cores"; "usagePercent"; "loadAvg"; "temperature"] /\
  body_keys_of "system" resp = ["uptime"; "uptimeSeconds"].
Proof. repeat split. Qed.

Section Handlers.

Variable Number_toString : Q -> string.
Variable JSON_parse : string -> Result JsVal.

Lemma formatUptime_of_floor (s : Q) :
  (0 <= s)%Q -> (s < inject_Z (86400 * 10 ^ 21))%Q ->
  formatUptime Number_toString (Fin s)
  = formatUptime Number_toString (Num.of_Z (Qfloor s)).
Proof.
  intros Hs Hbig.
  pose proof (Qfloor_le s) as Fl.
  assert (0 <= Qfloor s)%Z as Ht.
  { rewrite <- (Qfloor_Z 0). apply Qfloor_resp_le. exact Hs. }
  rewrite (formatUptime_units Number_toString s Hs Hbig).
  unfold Num.of_Z.
  rewrite (formatUptime_units Number_toString (inject_Z (Qfloor s))).
  - cbv zeta. rewrite Qfloor_Z. reflexivity.
  - change 0%Q with (inject_Z 0). rewrite <- Zle_Qle. exact Ht.
  - lra.
Qed.

(** X3.  For an uptime that is not negative, the [uptime] text of the
    snapshot is the text of its [uptimeSeconds], the whole number of
    seconds: the two fields of the system object never disagree.  The
    same holds of the handler that reads [os.uptime()]. *)
Theorem uptime_text_is_that_of_uptimeSeconds :
  (forall env,
      (0 <= process_uptime env)%Q ->
      (process_uptime env < inject_Z (86400 * 10 ^ 21))%Q ->
      exists resp (secs : Z),
        GET Number_toString JSON_parse env = Ok resp /\
        secs = Qfloor (process_uptime env) /\
        body_field "system" "uptimeSeconds" resp
        = Some (JNum (inject_Z secs)) /\
        body_field "system" "uptime" resp
        = Some (JStr (formatUptime Number_toString (Num.of_Z secs)))) /\
  (forall env,
      (0 <= os_uptime env)%Q ->
      (os_uptime env < inject_Z (86400 * 10 ^ 21))%Q ->
      exists resp (secs : Z),
        Plain.GET Number_toString env = Ok resp /\
        secs = Qfloor (os_uptime env) /\
        body_field "system" "uptimeSeconds" resp
        = Some (JNum (inject_Z secs)) /\
        body_field "system" "uptime" resp
        = Some (JStr (formatUptime Number_toString (Num.of_Z secs)))).
Proof.
  split.
  - intros env H0 H1.
    destruct (GET_assembles Number_toString JSON_parse env)
      as (n & m & t & b & _ & _ & _ & _ & _ & Hget).
    eexists. exists (Qfloor (process_uptime env)).
    split; [exact Hget|]. split; [reflexivity|].
    cbv zeta.
    match goal with
    | |- context [stats_json ?nt ?e ?a ?b ?c ?d ?m ?n ?p ?t ?u ?bat] =>
        pose proof (body_fields_of_stats_more nt e a b c d m n p t u bat 200
                      response_headers) as (Hup & Hsec & _)
    end.
    split; [exact Hsec|].
    rewrite <- formatUptime_of_floor by assumption. exact Hup.
  - intros env H0 H1.
    destruct (Plain_GET_assembles Number_toString env) as (m & t & b & Hget).
    eexists. exists (Qfloor (os_uptime env)).
    split; [exact Hget|]. split; [reflexivity|].
    cbv zeta.
    match goal with
    | |- context [stats_json ?nt ?e ?a ?b ?c ?d ?m ?n ?p ?t ?u ?bat] =>
        pose proof (body_fields_of_stats_more nt e a b c d m n p t u bat 200
                      response_headers) as (Hup & Hsec & _)
    end.
    split; [exact Hsec|].
    rewrite <- formatUptime_of_floor by assumption. exact Hup.
Qed.

(** X4.  The model probe never throws and picks its label in this
    order: the trimmed text of the first [Hardware] line of
    [/proc/cpuinfo]; else that of the first [model name] line; else the
    model of the first entry of [os.cpus()] when it is not empty; else
    ["Google Tensor G2"], also when the first entry's model is the empty
    string. *)
Theorem getCpuModel_fallback_chain (env : Env) :
  exists label : string,
    getCpuModel env = Ok label /\
    (forall hw, cpuinfo_capture "Hardware" env = Some hw ->
                label = Str.trim hw) /\
    (forall name,
        cpuinfo_capture "Hardware" env = None ->
        cpuinfo_capture "model name" env = Some name ->
        label = Str.trim name) /\
    (cpuinfo_capture "Hardware" env = None ->
     cpuinfo_capture "model name" env = None ->
     (forall c m rest,
         os_cpus env = {| model := String c m |} :: rest ->
         label = String c m) /\
     (os_cpus env = [] \/
      (exists rest, os_cpus env = {| model := "" |} :: rest) ->
      label = "Google Tensor G2")).
Proof.
  unfold cpuinfo_capture, getCpuModel, readFileSync, try_catch, bind.
  destruct (files env "/proc/cpuinfo") as [cpuinfo|].
  - destruct (Regex.first_capture "Hardware" true cpuinfo) as [hw|].
    { eexists. split; [reflexivity|].
      split; [intros ? [= <-]; reflexivity|].
      split; [discriminate|discriminate]. }
    destruct (Regex.first_capture "model name" true cpuinfo) as [name|].
    { eexists. split; [reflexivity|].
      split; [discriminate|].
      split; [intros ? _ [= <-]; reflexivity|discriminate]. }
    destruct (os_cpus env) as [|[[|c m]] l]; eexists;
      (split; [reflexivity|]); (split; [discriminate|]);
      (split; [discriminate|]); intros _ _; split;
      try (intros ? ? ? [= ]; subst; reflexivity);
      try discriminate; try reflexivity.
    + intros [H|(rest & H)]; discriminate.
  - destruct (os_cpus env) as [|[[|c m]] l]; eexists;
      (split; [reflexivity|]); (split; [discriminate|]);
      (split; [discriminate|]); intros _ _; split;
      try (intros ? ? ? [= ]; subst; reflexivity);
      try discriminate; try reflexivity.
    + intros [H|(rest & H)]; discriminate.
Qed.

Lemma Plain_getBatteryInfo_is (env : Env) :
  Plain.getBatteryInfo env =
  Ok {| level :=
          match files env "/sys/class/power_supply/battery/capacity" with
          | Some content => VNum (ParseInt.parseInt (Str.trim content))
          | None => VNull
          end;
        charging :=
          match files env "/sys/class/power_supply/battery/status" with
          | Some content => Some (charging_of_status content)
          | None => None
          end |}.
Proof.
  unfold Plain.getBatteryInfo, St.run, St.try_catch, St.bind, St.eval,
    St.assign, St.read, St.ret, readFileSync.
  destruct (files env "/sys/class/power_supply/battery/capacity");
    destruct (files env "/sys/class/power_supply/battery/status");
    reflexivity.
Qed.

Ltac stats_fields H :=
  match goal with
  | |- context [stats_json ?nt ?e ?a ?b ?c ?d ?m ?n ?p ?t ?u ?bat] =>
      pose proof (body_fields_of_stats_more nt e a b c d m n p t u bat 200
                    response_headers) as H
  end.

Ltac stats_members H :=
  match goal with
  | |- context [stats_json ?nt ?e ?a ?b ?c ?d ?m ?n ?p ?t ?u ?bat] =>
      pose proof (body_members_of_stats nt e a b c d m n p t u bat 200
                    response_headers) as H
  end.

(** X5.  On every host the handler answers with the headers
    [Content-Type: application/json] and
    [Cache-Control: no-cache, no-store, must-revalidate], and the
    device, memory, cpu and system objects of the body have the same
    keys whatever the probes found; the battery object has both its
    keys whenever the helper cannot be run. *)
Theorem GET_headers_and_fixed_objects (env : Env) :
  exists resp,
    GET Number_toString JSON_parse env = Ok resp /\
    Js.assoc "Content-Type" (headers resp) = Some "application/json" /\
    Js.assoc "Cache-Control" (headers resp)
    = Some "no-cache, no-store, must-revalidate" /\
    body_keys_of "device" resp = ["name"; "platform"; "arch"; "hostname"] /\
    body_keys_of "memory" resp = ["total"; "used"; "free"; "usagePercent"] /\
    body_keys_of "cpu" resp
    = ["model"; "cores"; "usagePercent"; "loadAvg"; "temperature"] /\
    body_keys_of "system" resp = ["uptime"; "uptimeSeconds"] /\
    (forall e, execSync env "termux-battery-status" 3000 = Throw e ->
               body_keys_of "battery" resp = ["level"; "charging"]).
Proof.
  destruct (GET_assembles Number_toString JSON_parse env)
    as (n & m & t & b & _ & _ & _ & _ & Hb & Hget).
  eexists. split; [exact Hget|].
  split; [reflexivity|]. split; [reflexivity|].
  cbv zeta. stats_fields F.
  destruct F as (_ & _ & _ & _ & _ & _ & Kd & Km & Kc & Ks).
  repeat (split; [assumption|]).
  intros e He. rewrite body_keys_of_battery.
  rewrite getBatteryInfo_cases in Hb. unfold helper_reading in Hb.
  rewrite He in Hb. cbn in Hb. injection Hb as <-.
  unfold battery_members, sysfs_battery. cbn [level].
  destruct (first_readable env batteryPaths) as [c|]; [|reflexivity].
  destruct (ParseInt.parseInt (Str.trim c)); reflexivity.
Qed.

(** X6.  The handler without the helper never rejects: on every host
    it answers with status 200, the two headers, the six top-level keys
    and the same keys in each of the five objects, [level] and
    [charging] included. *)
Theorem Plain_GET_fixed_shape (env : Env) :
  exists resp,
    Plain.GET Number_toString env = Ok resp /\
    status resp = 200%Z /\
    Js.assoc "Content-Type" (headers resp) = Some "application/json" /\
    Js.assoc "Cache-Control" (headers resp)
    = Some "no-cache, no-store, must-revalidate" /\
    body_keys resp = snapshot_keys /\
    body_keys_of "device" resp = ["name"; "platform"; "arch"; "hostname"] /\
    body_keys_of "memory" resp = ["total"; "used"; "free"; "usagePercent"] /\
    body_keys_of "cpu" resp
    = ["model"; "cores"; "usagePercent"; "loadAvg"; "temperature"] /\
    body_keys_of "system" resp = ["uptime"; "uptimeSeconds"] /\
    body_keys_of "battery" resp = ["level"; "charging"].
Proof.
  pose proof (Plain_getBatteryInfo_is env) as Hb.
  destruct (getCpuTemperature_returns env) as (t & Ht).
  unfold Plain.GET. rewrite Ht, Hb. cbn [bind].
  rewrite stringify_stats.
  eexists. split; [reflexivity|].
  split; [reflexivity|]. split; [reflexivity|]. split; [reflexivity|].
  stats_fields F.
  destruct F as (_ & _ & _ & _ & _ & K & Kd & Km & Kc & Ks).
  repeat (split; [assumption|]).
  rewrite body_keys_of_battery. unfold battery_members. cbn [level].
  destruct (files env "/sys/class/power_supply/battery/capacity") as [c|];
    [|reflexivity].
  destruct (ParseInt.parseInt (Str.trim c)); reflexivity.
Qed.

Lemma getCpuCoreCount_of_os_cpus (env : Env) :
  processor_lines env = None \/ processor_lines env = Some 0%nat ->
  os_cpus env <> [] ->
  getCpuCoreCount env = Ok (Z.of_nat (List.length (os_cpus env))).
Proof.
  unfold processor_lines, getCpuCoreCount, readFileSync, try_catch, bind.
  intros Hlines Hcpus.
  destruct (files env "/proc/cpuinfo") as [cpuinfo|].
  - destruct Hlines as [H|H]; [discriminate|]. injection H as ->.
    destruct (os_cpus env); [congruence|reflexivity].
  - destruct (os_cpus env); [congruence|reflexivity].
Qed.

(** X7.  On one host the two handlers give the same device and memory
    objects, timestamp, load averages and temperature; they give the
    same core count and CPU usage too when [/proc/cpuinfo] has no
    processor line to count and [os.cpus()] is not empty. *)
Theorem handlers_agree_outside_cpu_uptime_battery (env : Env) :
  exists r1 r2,
    GET Number_toString JSON_parse env = Ok r1 /\
    Plain.GET Number_toString env = Ok r2 /\
    body_member "device" r1 = body_member "device" r2 /\
    body_member "memory" r1 = body_member "memory" r2 /\
    body_member "timestamp" r1 = body_member "timestamp" r2 /\
    body_field "cpu" "loadAvg" r1 = body_field "cpu" "loadAvg" r2 /\
    body_field "cpu" "temperature" r1 = body_field "cpu" "temperature" r2 /\
    (processor_lines env = None \/ processor_lines env = Some 0%nat ->
     os_cpus env <> [] ->
     body_field "cpu" "cores" r1 = body_field "cpu" "cores" r2 /\
     body_field "cpu" "usagePercent" r1 = body_field "cpu" "usagePercent" r2).
Proof.
  destruct (getCpuTemperature_returns env) as (t & Ht).
  destruct (getBatteryInfo_returns JSON_parse env) as (b & Hb).
  destruct (getCpuModel_returns env) as (m & Hm).
  destruct (getCpuCoreCount_returns env) as (n & Hn & _).
  pose proof (Plain_getBatteryInfo_is env) as Hpb.
  unfold GET, Plain.GET. rewrite Hn, Hm, Ht, Hb, Hpb. cbn [bind].
  rewrite !stringify_stats.
  eexists. eexists. split; [reflexivity|]. split; [reflexivity|].
  repeat (split; [reflexivity|]).
  intros Hlines Hcpus.
  rewrite (getCpuCoreCount_of_os_cpus env Hlines Hcpus) in Hn.
  injection Hn as <-. split; reflexivity.
Qed.

(** X8.  When [os.cpus()] is empty, the handler that takes its length
    reports 0 cores and the model ["Unknown"], and divides the load by
    zero: [usagePercent] is 100 for a positive load and [null]
    otherwise.  It still answers with status 200. *)
Theorem Plain_GET_without_cpus (env : Env) :
  os_cpus env = [] ->
  exists resp,
    Plain.GET Number_toString env = Ok resp /\
    status resp = 200%Z /\
    body_field "cpu" "model" resp = Some (JStr "Unknown") /\
    body_field "cpu" "cores" resp = Some (JNum 0) /\
    body_field "cpu" "usagePercent" resp
    = Some (if Qlt_le_dec 0 (load_1min env) then JNum 100 else JNull).
Proof.
  intros Hcpus.
  pose proof (Plain_getBatteryInfo_is env) as Hb.
  destruct (getCpuTemperature_returns env) as (t & Ht).
  unfold Plain.GET. rewrite Ht, Hb, Hcpus. cbn [bind].
  rewrite stringify_stats.
  eexists. split; [reflexivity|]. split; [reflexivity|].
  stats_members M.
  destruct M as (_ & _ & _ & _ & Hmodel & Hcores & Hcpu & _).
  split; [exact Hmodel|]. split; [exact Hcores|].
  rewrite Hcpu. f_equal. rewrite loadavg_1min_is.
  unfold cpuUsagePercent, Num.div, Num.of_Z, Num.sign_of.
  cbn [List.length Z.of_nat].
  change (inject_Z 0 ?= 0)%Q with Eq.
  destruct (Qlt_le_dec 0 (load_1min env)) as [Hpos|Hneg].
  - apply Qgt_alt in Hpos. rewrite Hpos. reflexivity.
  - destruct (load_1min env ?= 0)%Q eqn:E; try reflexivity.
    apply Qgt_alt in E. lra.
Qed.

(** X9.  When the OS reports a total memory of 0, both handlers still
    answer with status 200; the memory [usagePercent], a division by
    zero, is written [null] and the total is ["0 MB"]. *)
Theorem GET_without_total_memory (env : Env) :
  os_totalmem env = 0%N ->
  exists r1 r2,
    GET Number_toString JSON_parse env = Ok r1 /\
    Plain.GET Number_toString env = Ok r2 /\
    status r1 = 200%Z /\ status r2 = 200%Z /\
    body_field "memory" "usagePercent" r1 = Some JNull /\
    body_field "memory" "usagePercent" r2 = Some JNull /\
    body_field "memory" "total" r1 = Some (JStr "0 MB").
Proof.
  intros Htotal.
  assert (memUsagePercent
            (Num.sub (Num.of_Z (Z.of_N 0)) (Num.of_Z (Z.of_N (os_freemem env))))
            (Num.of_Z (Z.of_N 0)) = NaN \/
          memUsagePercent
            (Num.sub (Num.of_Z (Z.of_N 0)) (Num.of_Z (Z.of_N (os_freemem env))))
            (Num.of_Z (Z.of_N 0)) = NInf) as Hmem.
  { rewrite sub_of_Z. unfold memUsagePercent, Num.div, Num.of_Z, Num.sign_of.
    change (inject_Z (Z.of_N 0) ?= 0)%Q with Eq.
    change 0%Q with (inject_Z 0). rewrite Qcompare_inject_Z.
    destruct (Z.of_N 0 - Z.of_N (os_freemem env) ?= 0)%Z eqn:E.
    - left. reflexivity.
    - right. reflexivity.
    - apply Z.compare_gt_iff in E. lia. }
  destruct (GET_assembles Number_toString JSON_parse env)
    as (n & m & t & b & _ & _ & _ & _ & _ & Hget).
  destruct (Plain_GET_assembles Number_toString env) as (m' & t' & b' & Hget').
  rewrite Htotal in Hget, Hget'. cbv zeta in Hget, Hget'.
  eexists. eexists. split; [exact Hget|]. split; [exact Hget'|].
  split; [reflexivity|]. split; [reflexivity|].
  assert (forall p, p = NaN \/ p = NInf -> json_of_number p = JNull) as Hnull
    by (intros p [-> | ->]; reflexivity).
  split; [|split].
  - stats_members M. destruct M as (_ & _ & _ & Hp & _).
    rewrite Hp, (Hnull _ Hmem). reflexivity.
  - match goal with
    | |- body_field _ _ {| status := _; headers := _;
           body := Some (stats_json ?nt ?e ?a ?b ?c ?d ?m ?n ?p ?t ?u ?bat) |}
         = _ =>
        pose proof (body_members_of_stats nt e a b c d m n p t u bat 200
                      response_headers) as (_ & _ & _ & Hp & _)
    end.
    rewrite Hp, (Hnull _ Hmem). reflexivity.
  - reflexivity.
Qed.

(** X10.  When the helper cannot be run, the battery probe returns
    what the probe of the other handler returns, provided the [BAT0]
    paths are not needed: for each of capacity and status, the
    [battery] path can be read or the [BAT0] path cannot.  When only
    the [BAT0] capacity can be read, the first has a level and the
    other has [null]. *)
Theorem getBatteryInfo_agrees_with_plain (env : Env) (e : Exn) :
  execSync env "termux-battery-status" 3000 = Throw e ->
  ((files env "/sys/class/power_supply/battery/capacity" <> None \/
    files env "/sys/class/power_supply/BAT0/capacity" = None) ->
   (files env "/sys/class/power_supply/battery/status" <> None \/
    files env "/sys/class/power_supply/BAT0/status" = None) ->
   getBatteryInfo JSON_parse env = Plain.getBatteryInfo env) /\
  (forall content,
      files env "/sys/class/power_supply/battery/capacity" = None ->
      files env "/sys/class/power_supply/BAT0/capacity" = Some content ->
      exists b b',
        getBatteryInfo JSON_parse env = Ok b /\
        Plain.getBatteryInfo env = Ok b' /\
        level b = VNum (ParseInt.parseInt (Str.trim content)) /\
        level b' = VNull).
Proof.
  intros He.
  assert (getBatteryInfo JSON_parse env = Ok (sysfs_battery env)) as Hmain.
  { rewrite getBatteryInfo_cases. unfold helper_reading. rewrite He.
    reflexivity. }
  rewrite Hmain, Plain_getBatteryInfo_is.
  unfold sysfs_battery, batteryPaths, statusPaths. cbn [first_readable].
  split.
  - intros Hcap Hst. f_equal.
    destruct (files env "/sys/class/power_supply/battery/capacity");
      destruct (files env "/sys/class/power_supply/battery/status");
      destruct Hcap as [Hc|Hc]; destruct Hst as [Hs|Hs];
      try congruence; rewrite ?Hc, ?Hs; reflexivity.
  - intros content Hnone Hsome. rewrite Hnone, Hsome.
    eexists. eexists. split; [reflexivity|]. split; [reflexivity|].
    split; reflexivity.
Qed.
End Handlers.

(** ** The battery helper *)

Section Helper.

Variable JSON_parse : string -> Result JsVal.



(** X12.  A helper that ends in time but exits with another status
    than 0, or prints [null], sends the battery probe to the
    pseudo-files.  One that prints a boolean, a number, a string or an
    array does not: the probe returns [level] [undefined] and
    [charging] false. *)
Theorem getBatteryInfo_other_helper_outcomes (env : Env) (elapsed : Z)
  (exit_status : Z) (output : string) :
  programs env "termux-battery-status" = Runs elapsed exit_status output ->
  (elapsed <= 3000)%Z ->
  (exit_status <> 0%Z ->
   getBatteryInfo JSON_parse env = Ok (sysfs_battery env)) /\
  (exit_status = 0%Z -> JSON_parse output = Ok VNull ->
   getBatteryInfo JSON_parse env = Ok (sysfs_battery env)) /\
  (exit_status = 0%Z ->
   (exists x, JSON_parse output = Ok (VBool x)) \/
   (exists x, JSON_parse output = Ok (VNum x)) \/
   (exists x, JSON_parse output = Ok (VStr x)) \/
   (exists x, JSON_parse output = Ok (VArr x)) ->
   getBatteryInfo JSON_parse env
   = Ok {| level := VUndefined; charging := Some false |}).
Proof.
  intros Hrun Htime. apply Z.ltb_ge in Htime.
  rewrite getBatteryInfo_cases. unfold helper_reading, execSync.
  rewrite Hrun, Htime.
  split; [|split].
  - intros Hexit. apply Z.eqb_neq in Hexit. rewrite Hexit. reflexivity.
  - intros -> Hparse. cbn. rewrite Hparse. reflexivity.
  - intros -> [(x & H)|[(x & H)|[(x & H)|(x & H)]]]; cbn; rewrite H;
      reflexivity.
Qed.
End Helper.

(** ** The load averages *)

Section LoadAverages.

Variable Number_toString : Q -> string.
Variable JSON_parse : string -> Result JsVal.

Lemma toFixed_2_nonneg (q : Q) :
  (0 <= q)%Q -> (q < inject_Z (10 ^ 21))%Q ->
  toFixed Number_toString 2 (Fin q) = hundredths (Math.round_Q (q * 100)).
Proof.
  intros H0 Hbig. unfold toFixed, hundredths.
  assert (Qabs q == q)%Q as Habs by (apply Qabs_pos; exact H0).
  rewrite nonneg_Qle_bool by exact H0.
  rewrite below_ten_pow_21 by (rewrite Habs; exact Hbig).
  change (inject_Z (10 ^ Z.of_nat 2)) with 100%Q.
  rewrite (round_Q_comp (Qabs q * 100) (q * 100)) by (rewrite Habs; reflexivity).
  set (n := Math.round_Q (q * 100)).
  assert (0 <= n)%Z as Hn by (apply round_Q_nonneg; lra).
  cbn [Nat.eqb].
  destruct (Z_lt_ge_dec n 10) as [H10|H10].
  - rewrite (of_nonneg_step n Hn).
    destruct (Z.ltb_spec n 10) as [_|]; [|lia].
    rewrite (Z.div_small n 100), (Z.div_small n 10) by lia. reflexivity.
  - destruct (Z_lt_ge_dec n 100) as [H100|H100].
    + assert (0 <= n / 10 < 10)%Z as Hq.
      { split; [apply Z.div_pos; lia|apply Z.div_lt_upper_bound; lia]. }
      rewrite (of_nonneg_step n Hn).
      destruct (Z.ltb_spec n 10) as [|_]; [lia|].
      rewrite (of_nonneg_step (n / 10)) by lia.
      destruct (Z.ltb_spec (n / 10) 10) as [_|]; [|lia].
      rewrite (Z.div_small n 100) by lia. reflexivity.
    + rewrite (of_nonneg_hundreds n) by lia.
      set (a := Dec.of_nonneg (n / 100)).
      set (b := String (Dec.digit_char ((n / 10) mod 10))
                  (String (Dec.digit_char (n mod 10)) EmptyString)).
      assert (1 <= String.length a)%nat as Ha.
      { apply of_nonneg_length. apply Z.div_pos; lia. }
      rewrite length_app. change (String.length b) with 2%nat.
      replace (Nat.leb (String.length a + 2) 2) with false
        by (symmetry; apply Nat.leb_gt; lia).
      rewrite length_app. change (String.length b) with 2%nat.
      replace (String.length a + 2 - 2)%nat with (String.length a) by lia.
      rewrite substring_app_left.
      change 2%nat with (String.length b) at 1.
      rewrite substring_app_right. reflexivity.
Qed.

(** X13.  For load averages that are not negative, the [loadAvg] field
    of the snapshot is an array of three strings, the 1-, 5- and
    15-minute averages in this order, each rounded to the closest
    hundredth and written with exactly two decimals. *)
Theorem loadAvg_three_strings_of_two_decimals (env : Env) :
  (0 <= load_1min env < inject_Z (10 ^ 21))%Q ->
  (0 <= load_5min env < inject_Z (10 ^ 21))%Q ->
  (0 <= load_15min env < inject_Z (10 ^ 21))%Q ->
  exists resp (n1 n5 n15 : Z),
    GET Number_toString JSON_parse env = Ok resp /\
    nearest_integer n1 (load_1min env * 100) /\
    nearest_integer n5 (load_5min env * 100) /\
    nearest_integer n15 (load_15min env * 100) /\
    body_field "cpu" "loadAvg" resp
    = Some (JArr [ JStr (hundredths n1); JStr (hundredths n5);
                   JStr (hundredths n15) ]).
Proof.
  unfold load_1min, load_5min, load_15min.
  destruct (os_loadavg env) as [[one five] fifteen] eqn:Hload.
  cbn [fst snd]. intros [A0 A1] [B0 B1] [C0 C1].
  destruct (GET_assembles Number_toString JSON_parse env)
    as (n & m & t & b & _ & _ & _ & _ & _ & Hget).
  eexists. exists (Math.round_Q (one * 100)), (Math.round_Q (five * 100)),
    (Math.round_Q (fifteen * 100)).
  split; [exact Hget|].
  repeat (split; [apply round_Q_bounds|]).
  cbv zeta.
  match goal with
  | |- context [stats_json ?nt ?e ?a ?b ?c ?d ?m ?n ?p ?t ?u ?bat] =>
      pose proof (body_fields_of_stats_more nt e a b c d m n p t u bat 200
                    response_headers) as (_ & _ & Hl & _)
  end.
  rewrite Hl. unfold loadavg. rewrite Hload. cbn [map].
  rewrite !toFixed_2_nonneg by assumption. reflexivity.
Qed.

End LoadAverages.

(** ** Decimal pseudo-files and the lines of [/proc/cpuinfo] *)

Lemma string_forall_app (p : ascii -> bool) (a b : string) :
  string_forall p (a ++ b) = string_forall p a && string_forall p b.
Proof.
  induction a as [|c a IH]; cbn; [reflexivity|].
  rewrite IH, andb_assoc. reflexivity.
Qed.

Lemma digit_char_cases (d : Z) :
  (0 <= d <= 9)%Z ->
  is_decimal_digit (Dec.digit_char d) = true /\
  ParseInt.digit 10 (Dec.digit_char d) = Some d.
Proof.
  intros H.
  assert (d = 0 \/ d = 1 \/ d = 2 \/ d = 3 \/ d = 4 \/ d = 5 \/ d = 6 \/
          d = 7 \/ d = 8 \/ d = 9)%Z as C by lia.
  repeat (destruct C as [->|C]; [split; reflexivity|]).
  subst. split; reflexivity.
Qed.

Lemma of_nonneg_all_digits (n : Z) :
  (0 <= n)%Z -> string_forall is_decimal_digit (Dec.of_nonneg n) = true.
Proof.
  induction n as [n IH] using (well_founded_induction (Z.lt_wf 0)).
  intro Hn. rewrite of_nonneg_step by exact Hn.
  pose proof (Z.mod_pos_bound n 10 ltac:(lia)) as Hm.
  destruct (digit_char_cases (n mod 10) ltac:(lia)) as (Hd & _).
  destruct (Z.ltb_spec n 10) as [Hlt|Hge].
  - cbn. rewrite Hd. reflexivity.
  - rewrite string_forall_app. cbn [string_forall]. rewrite Hd.
    rewrite IH; [reflexivity| |apply Z.div_pos; lia].
    split; [apply Z.div_pos; lia|apply Z.div_lt; lia].
Qed.

Lemma digits_of_nonneg (n : Z) :
  (0 <= n)%Z ->
  exists p : Z,
    forall (rest : string) (seen : bool) (acc : Z),
      ParseInt.digits 10 (Dec.of_nonneg n ++ rest) seen acc
      = ParseInt.digits 10 rest true (acc * p + n).
Proof.
  induction n as [n IH] using (well_founded_induction (Z.lt_wf 0)).
  intro Hn. rewrite of_nonneg_step by exact Hn.
  pose proof (Z.mod_pos_bound n 10 ltac:(lia)) as Hm.
  destruct (digit_char_cases (n mod 10) ltac:(lia)) as (_ & Hd).
  destruct (Z.ltb_spec n 10) as [Hlt|Hge].
  - exists 10%Z. intros rest seen acc. cbn [append ParseInt.digits].
    rewrite Hd. rewrite Z.mod_small by lia. reflexivity.
  - destruct (IH (n / 10)%Z) as (p & Hp).
    { split; [apply Z.div_pos; lia|apply Z.div_lt; lia]. }
    { apply Z.div_pos; lia. }
    exists (p * 10)%Z. intros rest seen acc.
    rewrite app_assoc_string, Hp. cbn [append ParseInt.digits].
    rewrite Hd. f_equal.
    pose proof (Z.div_mod n 10 ltac:(lia)). lia.
Qed.

Lemma digit_not_space (c : ascii) :
  is_decimal_digit c = true -> Str.is_space c = false.
Proof.
  unfold is_decimal_digit, Str.is_space. intro H.
  apply andb_prop in H as [H1 H2].
  apply N.leb_le in H1. apply N.leb_le in H2.
  destruct (N.leb_spec 9 (Str.code c)); destruct (N.leb_spec (Str.code c) 13);
    destruct (N.eqb_spec (Str.code c) 32);
    destruct (N.eqb_spec (Str.code c) 160); try lia; reflexivity.
Qed.

Lemma trimEnd_digits_newline (a : string) :
  a <> EmptyString -> string_forall is_decimal_digit a = true ->
  Str.trimEnd (a ++ newline) = a.
Proof.
  induction a as [|c r IH]; intros Hne Hall; [congruence|].
  cbn in Hall. apply andb_prop in Hall as [Hc Hr].
  cbn [append Str.trimEnd].
  destruct r as [|c' r'].
  - cbn. rewrite (digit_not_space c Hc). reflexivity.
  - rewrite IH by (try discriminate; exact Hr). reflexivity.
Qed.

Lemma unsigned_of_digits (s : string) :
  string_forall is_decimal_digit s = true ->
  ParseInt.unsigned s = ParseInt.digits 10 s false 0.
Proof.
  intro Hall. destruct s as [|c r]; [reflexivity|].
  destruct r as [|c2 r2].
  - destruct c as [[] [] [] [] [] [] [] []]; reflexivity.
  - cbn in Hall. apply andb_prop in Hall as [_ Hall].
    apply andb_prop in Hall as [H2 _].
    destruct (Ascii.eqb_spec c "0") as [->|Hc].
    + destruct c2 as [[] [] [] [] [] [] [] []];
        try reflexivity; discriminate H2.
    + destruct c as [[] [] [] [] [] [] [] []]; try reflexivity.
      congruence.
Qed.

Lemma parseInt_of_decimal_file (n : Z) :
  (0 <= n)%Z ->
  ParseInt.parseInt (Str.trim (Dec.of_nonneg n ++ newline)) = Num.of_Z n.
Proof.
  intro Hn.
  pose proof (of_nonneg_all_digits n Hn) as Hall.
  destruct (of_nonneg_head n Hn) as (c & r & E).
  assert (is_decimal_digit c = true) as Hc.
  { rewrite E in Hall. cbn in Hall. apply andb_prop in Hall. tauto. }
  pose proof (digit_not_space c Hc) as Hsp.
  assert (Str.trim (Dec.of_nonneg n ++ newline) = Dec.of_nonneg n) as Htrim.
  { unfold Str.trim.
    replace (Str.trimStart (Dec.of_nonneg n ++ newline))
      with (Dec.of_nonneg n ++ newline)
      by (rewrite E; cbn; rewrite Hsp; reflexivity).
    apply trimEnd_digits_newline; [rewrite E; discriminate|exact Hall]. }
  rewrite Htrim. unfold ParseInt.parseInt.
  replace (Str.trimStart (Dec.of_nonneg n)) with (Dec.of_nonneg n)
    by (rewrite E; cbn; rewrite Hsp; reflexivity).
  assert (match Dec.of_nonneg n with
          | String "-" r => (true, r)
          | String "+" r => (false, r)
          | _ => (false, Dec.of_nonneg n)
          end = (false, Dec.of_nonneg n)) as Hsign.
  { rewrite E. clear -Hc.
    destruct c as [[] [] [] [] [] [] [] []]; try reflexivity; discriminate Hc. }
  rewrite Hsign.
  rewrite unsigned_of_digits by exact Hall.
  destruct (digits_of_nonneg n Hn) as (p & Hp).
  specialize (Hp EmptyString false 0%Z).
  replace (Dec.of_nonneg n ++ "") with (Dec.of_nonneg n) in Hp.
  - rewrite Hp. cbn. reflexivity.
  - clear. induction (Dec.of_nonneg n); cbn; congruence.
Qed.

Lemma count_inside_line (label l rest : string) :
  no_line_terminator l = true ->
  Regex.count_lines label false (l ++ newline ++ rest)
  = Regex.count_lines label true rest.
Proof.
  induction l as [|c r IH]; intro H; [reflexivity|].
  cbn in H. apply andb_prop in H as [Hc Hr].
  cbn [append Regex.count_lines].
  apply negb_true_iff in Hc. rewrite Hc. apply IH. exact Hr.
Qed.

Lemma count_line (label l rest : string) :
  no_line_terminator l = true ->
  Regex.count_lines label true (l ++ newline ++ rest)
  = ((match Regex.label_colon label (l ++ newline ++ rest) with
      | Some _ => 1
      | None => 0
      end) + Regex.count_lines label true rest)%nat.
Proof.
  intro H. destruct l as [|c r]; [reflexivity|].
  cbn in H. apply andb_prop in H as [Hc Hr].
  cbn [append Regex.count_lines].
  apply negb_true_iff in Hc. rewrite Hc.
  rewrite (count_inside_line label r rest Hr). reflexivity.
Qed.

Lemma strip_prefix_app (p l x r : string) :
  Str.strip_prefix p l = Some r -> Str.strip_prefix p (l ++ x) = Some (r ++ x).
Proof.
  revert l. induction p as [|a p IH]; intros l H.
  - cbn in *. injection H as ->. reflexivity.
  - destruct l as [|b l]; [discriminate|]. cbn in *.
    destruct (Ascii.eqb a b); [apply IH; exact H|discriminate].
Qed.

Lemma strip_prefix_none_app (p l rest : string) :
  string_forall (fun c => negb (Ascii.eqb c "010")) p = true ->
  Str.strip_prefix p l = None ->
  Str.strip_prefix p (l ++ newline ++ rest) = None.
Proof.
  revert l. induction p as [|a p IH]; intros l Hp H; [discriminate|].
  cbn in Hp. apply andb_prop in Hp as [Ha Hp].
  destruct l as [|b l]; cbn in *.
  - apply negb_true_iff in Ha. rewrite Ha. reflexivity.
  - destruct (Ascii.eqb a b); [apply IH; assumption|reflexivity].
Qed.

Lemma skip_spaces_app (r x : string) :
  Regex.skip_spaces r <> EmptyString ->
  Regex.skip_spaces (r ++ x) = Regex.skip_spaces r ++ x.
Proof.
  induction r as [|c r IH]; intro H; [cbn in H; congruence|].
  cbn in *. destruct (Str.is_space c); [apply IH; exact H|reflexivity].
Qed.

Lemma label_colon_in_line (l rest : string) :
  label_alone l = false ->
  match Regex.label_colon "processor" (l ++ newline ++ rest) with
  | Some _ => 1%nat
  | None => 0%nat
  end = if processor_line l then 1%nat else 0%nat.
Proof.
  unfold label_alone, processor_line, Regex.label_colon. intro H.
  destruct (Str.strip_prefix "processor" l) as [r|] eqn:E.
  - rewrite (strip_prefix_app _ _ (newline ++ rest) _ E).
    destruct (Regex.skip_spaces r) as [|c r'] eqn:S; [discriminate|].
    rewrite skip_spaces_app by (rewrite S; discriminate).
    rewrite S. cbn [append].
    destruct c as [[] [] [] [] [] [] [] []]; reflexivity.
  - rewrite (strip_prefix_none_app "processor" l rest (eq_refl true) E).
    reflexivity.
Qed.

Lemma count_lines_unlines (ls : list string) :
  Forall (fun l => no_line_terminator l = true /\ label_alone l = false) ls ->
  Regex.count_lines "processor" true (unlines ls)
  = List.length (filter processor_line ls).
Proof.
  induction ls as [|l ls IH]; intro H; [reflexivity|].
  inversion H as [|? ? [Hnt Hal] Hrest]; subst.
  cbn [unlines fold_right filter]. fold (unlines ls).
  rewrite count_line by exact Hnt.
  rewrite label_colon_in_line by exact Hal.
  rewrite IH by exact Hrest.
  destruct (processor_line l); reflexivity.
Qed.

(** X14.  When [/proc/cpuinfo] is a text of lines, none of which is
    the word [processor] with blanks only, the core count is the number
    of lines that start with [processor], blanks if any, and a colon;
    when there is one at least.  With none, the count is that of
    [os.cpus()] or 8. *)
Theorem getCpuCoreCount_counts_processor_lines (env : Env)
  (ls : list string) :
  files env "/proc/cpuinfo" = Some (unlines ls) ->
  Forall (fun l => no_line_terminator l = true /\ label_alone l = false) ls ->
  let k := List.length (filter processor_line ls) in
  ((0 < k)%nat -> getCpuCoreCount env = Ok (Z.of_nat k)) /\
  (k = 0%nat ->
   getCpuCoreCount env
   = Ok (match os_cpus env with
         | [] => 8%Z
         | cpus => Z.of_nat (List.length cpus)
         end)).
Proof.
  intros Hfile Hlines k.
  unfold getCpuCoreCount, readFileSync, try_catch, bind.
  rewrite Hfile, (count_lines_unlines ls Hlines). fold k.
  split.
  - intro Hk. destruct k; [lia|reflexivity].
  - intros ->. destruct (os_cpus env); reflexivity.
Qed.

(** X14 on a text of seven lines, two of them processor lines. *)
Lemma getCpuCoreCount_counts_processor_lines_witness :
  ((0 < 2)%nat -> getCpuCoreCount two_cores = Ok 2%Z) /\
  (2%nat = 0%nat ->
   getCpuCoreCount two_cores
   = Ok (match os_cpus two_cores with
         | [] => 8%Z
         | cpus => Z.of_nat (List.length cpus)
         end)).
Proof.
  apply (getCpuCoreCount_counts_processor_lines two_cores cpuinfo_lines).
  - reflexivity.
  - repeat constructor.
Defined.

Section ReadBack.

Variable Number_toString : Q -> string.
Variable JSON_parse : string -> Result JsVal.

(** X15.  A pseudo-file that holds the decimal digits of a number and a
    newline reads back as that number: the first thermal zone that can
    be read gives [n], or [n / 1000] when [n] is above 1000, and, when
    the helper cannot be run, the first capacity file that can be read
    gives the level [n], which the body of the response shows. *)
Theorem decimal_pseudo_files_read_back (env : Env) :
  (forall n : Z,
      (0 <= n)%Z ->
      first_readable env thermalPaths = Some (Dec.of_nonneg n ++ newline) ->
      exists q,
        getCpuTemperature env = Ok (Some (Fin q)) /\
        (q == if (1000 <? n)%Z then inject_Z n / 1000 else inject_Z n)%Q) /\
  (forall (n : Z) (e : Exn),
      (0 <= n)%Z ->
      execSync env "termux-battery-status" 3000 = Throw e ->
      first_readable env batteryPaths = Some (Dec.of_nonneg n ++ newline) ->
      exists b resp,
        getBatteryInfo JSON_parse env = Ok b /\
        level b = VNum (Num.of_Z n) /\
        GET Number_toString JSON_parse env = Ok resp /\
        body_field "battery" "level" resp = Some (JNum (inject_Z n))).
Proof.
  split.
  - intros n Hn Hfirst. unfold getCpuTemperature.
    rewrite getCpuTemperature_from_first_readable, Hfirst. cbv zeta.
    rewrite (parseInt_of_decimal_file n Hn).
    unfold Num.gt, Num.div, Num.of_Z, Num.sign_of.
    rewrite Qcompare_inject_Z.
    destruct (Z.ltb_spec 1000 n) as [Hgt|Hle].
    + apply Z.lt_gt in Hgt. rewrite Hgt.
      change (inject_Z 1000 ?= 0)%Q with Gt.
      eexists. split; [reflexivity|]. apply Qred_correct.
    + destruct (n ?= 1000)%Z eqn:E;
        try (apply Z.compare_gt_iff in E; lia);
        eexists; (split; reflexivity).
  - intros n e Hn Hexec Hfirst.
    destruct (GET_assembles Number_toString JSON_parse env)
      as (c & m & t & b & _ & _ & _ & _ & Hb & Hget).
    assert (b = sysfs_battery env) as ->.
    { rewrite getBatteryInfo_cases in Hb. unfold helper_reading in Hb.
      rewrite Hexec in Hb. cbn in Hb. congruence. }
    exists (sysfs_battery env). eexists.
    split; [exact Hb|].
    assert (level (sysfs_battery env) = VNum (Num.of_Z n)) as Hlevel.
    { unfold sysfs_battery. cbn [level].
      rewrite Hfirst, (parseInt_of_decimal_file n Hn). reflexivity. }
    split; [exact Hlevel|]. split; [exact Hget|].
    cbv zeta. unfold body_field. cbn [body].
    match goal with
    | |- context [stats_json ?nt ?e ?a ?b ?c ?d ?m ?n ?p ?t ?u ?bat] =>
        pose proof (body_members_of_stats nt e a b c d m n p t u bat 200
                      response_headers) as (_ & _ & _ & _ & _ & _ & _ & _ & Hbat)
    end.
    unfold body_member in Hbat. cbn [body] in Hbat. rewrite Hbat.
    unfold battery_members. rewrite Hlevel. reflexivity.
Qed.

End ReadBack.

(** ** The further properties on the example hosts *)

(** X1 on an uptime of 3725.5 seconds. *)
Lemma formatUptime_whole_units_witness :
  formatUptime example_Number_toString (Fin (7451 # 2)) = "1h 2m".
Proof.
  exact (proj2 (proj2 (proj2
           (formatUptime_whole_units example_Number_toString (7451 # 2)
              ltac:(discriminate) ltac:(reflexivity))))).
Defined.

(** X2 a tenth of a second before the minute, and at the minute. *)
Lemma formatUptime_placeholder_below_one_minute_witness :
  formatUptime example_Number_toString (Fin (599 # 10)) = "< 1m" /\
  formatUptime example_Number_toString (Fin 60) <> "< 1m".
Proof.
  split.
  - apply (proj1 (formatUptime_placeholder_below_one_minute
                    example_Number_toString)).
    reflexivity.
  - apply (proj2 (proj2 (formatUptime_placeholder_below_one_minute
                           example_Number_toString)));
      [discriminate|reflexivity].
Defined.

(** X3 on the server, for each handler. *)
Lemma uptime_text_is_that_of_uptimeSeconds_witness :
  (exists resp (secs : Z),
      GET example_Number_toString example_JSON_parse server = Ok resp /\
      secs = Qfloor (process_uptime server) /\
      body_field "system" "uptimeSeconds" resp
      = Some (JNum (inject_Z secs)) /\
      body_field "system" "uptime" resp
      = Some (JStr (formatUptime example_Number_toString (Num.of_Z secs)))) /\
  (exists resp (secs : Z),
      Plain.GET example_Number_toString server = Ok resp /\
      secs = Qfloor (os_uptime server) /\
      body_field "system" "uptimeSeconds" resp
      = Some (JNum (inject_Z secs)) /\
      body_field "system" "uptime" resp
      = Some (JStr (formatUptime example_Number_toString (Num.of_Z secs)))).
Proof.
  split.
  - apply (proj1 (uptime_text_is_that_of_uptimeSeconds
                    example_Number_toString example_JSON_parse) server);
      [discriminate|reflexivity].
  - apply (proj2 (uptime_text_is_that_of_uptimeSeconds
                    example_Number_toString example_JSON_parse) server);
      [discriminate|reflexivity].
Defined.

(** X8 on the server without its list of CPUs. *)
Lemma Plain_GET_without_cpus_witness :
  exists resp,
    Plain.GET example_Number_toString without_cpus = Ok resp /\
    status resp = 200%Z /\
    body_field "cpu" "model" resp = Some (JStr "Unknown") /\
    body_field "cpu" "cores" resp = Some (JNum 0) /\
    body_field "cpu" "usagePercent" resp
    = Some (if Qlt_le_dec 0 (load_1min without_cpus)
            then JNum 100 else JNull).
Proof.
  apply (Plain_GET_without_cpus example_Number_toString without_cpus).
  reflexivity.
Defined.

(** X9 on the server without its memory counts. *)
Lemma GET_without_total_memory_witness :
  exists r1 r2,
    GET example_Number_toString example_JSON_parse without_memory_counts
    = Ok r1 /\
    Plain.GET example_Number_toString without_memory_counts = Ok r2 /\
    status r1 = 200%Z /\ status r2 = 200%Z /\
    body_field "memory" "usagePercent" r1 = Some JNull /\
    body_field "memory" "usagePercent" r2 = Some JNull /\
    body_field "memory" "total" r1 = Some (JStr "0 MB").
Proof.
  apply (GET_without_total_memory example_Number_toString example_JSON_parse
           without_memory_counts).
  reflexivity.
Defined.

(** X10 on a phone, where the two probes agree, and on a laptop, where
    they do not. *)
Lemma getBatteryInfo_agrees_with_plain_witness :
  getBatteryInfo example_JSON_parse phone_sysfs
  = Plain.getBatteryInfo phone_sysfs /\
  exists b b',
    getBatteryInfo example_JSON_parse laptop = Ok b /\
    Plain.getBatteryInfo laptop = Ok b' /\
    level b = VNum (ParseInt.parseInt (Str.trim ("85" ++ newline))) /\
    level b' = VNull.
Proof.
  split.
  - apply (proj1 (getBatteryInfo_agrees_with_plain example_JSON_parse
                    phone_sysfs (ExecError CommandNotFound) eq_refl));
      left; discriminate.
  - apply (proj2 (getBatteryInfo_agrees_with_plain example_JSON_parse
                    laptop (ExecError CommandNotFound) eq_refl));
      reflexivity.
Defined.


(** X12 on a helper that exits with status 1 and on one that prints
    [null]. *)
Lemma getBatteryInfo_other_helper_outcomes_witness :
  getBatteryInfo example_JSON_parse helper_exits_1
  = Ok (sysfs_battery helper_exits_1) /\
  getBatteryInfo example_JSON_parse helper_prints_null
  = Ok (sysfs_battery helper_prints_null).
Proof.
  split.
  - apply (proj1 (getBatteryInfo_other_helper_outcomes example_JSON_parse
                    helper_exits_1 10 1 "" eq_refl ltac:(lia))).
    discriminate.
  - apply (proj1 (proj2 (getBatteryInfo_other_helper_outcomes
                           example_JSON_parse helper_prints_null 10 0 "null"
                           eq_refl ltac:(lia))));
      reflexivity.
Defined.

(** X13 on the server, whose load averages are 0.5, 0.25 and 0.125. *)
Lemma loadAvg_three_strings_of_two_decimals_witness :
  exists resp (n1 n5 n15 : Z),
    GET example_Number_toString example_JSON_parse server = Ok resp /\
    nearest_integer n1 (load_1min server * 100) /\
    nearest_integer n5 (load_5min server * 100) /\
    nearest_integer n15 (load_15min server * 100) /\
    body_field "cpu" "loadAvg" resp
    = Some (JArr [ JStr (hundredths n1); JStr (hundredths n5);
                   JStr (hundredths n15) ]).
Proof.
  apply (loadAvg_three_strings_of_two_decimals example_Number_toString
           example_JSON_parse server);
    split; (discriminate || reflexivity).
Defined.

(** X15 on a phone at 45000 millidegrees and on one at 85 percent. *)
Lemma decimal_pseudo_files_read_back_witness :
  (exists q,
      getCpuTemperature phone_thermal = Ok (Some (Fin q)) /\
      (q == if (1000 <? 45000)%Z then inject_Z 45000 / 1000
            else inject_Z 45000)%Q) /\
  (exists b resp,
      getBatteryInfo example_JSON_parse phone_sysfs = Ok b /\
      level b = VNum (Num.of_Z 85) /\
      GET example_Number_toString example_JSON_parse phone_sysfs = Ok resp /\
      body_field "battery" "level" resp = Some (JNum (inject_Z 85))).
Proof.
  split.
  - apply (proj1 (decimal_pseudo_files_read_back example_Number_toString
                    example_JSON_parse phone_thermal) 45000%Z);
      [lia|reflexivity].
  - apply (proj2 (decimal_pseudo_files_read_back example_Number_toString
                    example_JSON_parse phone_sysfs) 85%Z
             (ExecError CommandNotFound));
      [lia|reflexivity|reflexivity].
Defined.
